(** * IRS EIN form automation: a shallow embedding of
      [corpnet_irs/ein_automation_final.py] and its properties.

    Conventions of the embedding.
    - Python [str] is [string]; the text handled here is ASCII (code points
      below 128), and the character operations leave every other byte alone.
    - Python [int] is [Z]; [Optional[T]] is [option T] ([None] for [None]).
    - A [dict] is an association list in insertion order (a Python dict has
      pairwise distinct keys; nothing below needs that).
    - The browser, PyMuPDF, the file system, the clock and the webhook are the
      environment: every call into them is recorded in a trace and its outcome
      (a return value or a raised exception) is given by an oracle. *)

From Stdlib Require Import ZArith Ascii String List Bool Lia DecimalString Sorted.
From stdpp Require Import base option list gmap strings.

Set Warnings "-register-all,-clear-no-such-hyp".

Local Open Scope string_scope.
Local Open Scope Z_scope.

(** ** Python string primitives *)

Module Py.

Definition code (c : ascii) : nat := nat_of_ascii c.

(** [str.isspace] on ASCII: tab, LF, VT, FF, CR, FS, GS, RS, US, space. *)
Definition is_space (c : ascii) : bool :=
  ((9 <=? code c) && (code c <=? 13) || (28 <=? code c) && (code c <=? 32))%nat.

(** [\d] on ASCII. *)
Definition is_digit (c : ascii) : bool :=
  ((48 <=? code c) && (code c <=? 57))%nat.

Definition digit_val (c : ascii) : Z := Z.of_nat (code c - 48).

Definition upper_char (c : ascii) : ascii :=
  if ((97 <=? code c) && (code c <=? 122))%nat then ascii_of_nat (code c - 32) else c.

Definition lower_char (c : ascii) : ascii :=
  if ((65 <=? code c) && (code c <=? 90))%nat then ascii_of_nat (code c + 32) else c.

Fixpoint map_chars (f : ascii -> ascii) (s : string) : string :=
  match s with
  | EmptyString => EmptyString
  | String c s' => String (f c) (map_chars f s')
  end.

(** [s.upper()] and [s.lower()]. *)
Definition upper : string -> string := map_chars upper_char.
Definition lower : string -> string := map_chars lower_char.

Fixpoint lstrip (s : string) : string :=
  match s with
  | EmptyString => EmptyString
  | String c s' => if is_space c then lstrip s' else s
  end.

Fixpoint rstrip (s : string) : string :=
  match s with
  | EmptyString => EmptyString
  | String c s' =>
      match rstrip s' with
      | EmptyString => if is_space c then EmptyString else String c EmptyString
      | r => String c r
      end
  end.

(** [s.strip()]. *)
Definition strip (s : string) : string := rstrip (lstrip s).

(** [len(s)]. *)
Definition len (s : string) : nat := String.length s.



(** [sep] is a prefix of [s] ([s.startswith(sep)]). *)
Fixpoint starts_with (sep s : string) : bool :=
  match sep, s with
  | EmptyString, _ => true
  | String a sep', String b s' => if Ascii.eqb a b then starts_with sep' s' else false
  | String _ _, EmptyString => false
  end.

(** [sep in s] for a non-empty [sep]. *)
Fixpoint contains (sep s : string) : bool :=
  starts_with sep s ||
  match s with
  | EmptyString => false
  | String _ s' => contains sep s'
  end.

(** [s.split(sep)] for a non-empty [sep]: scan from the left, cut at every
    occurrence and resume after it.  [skip] counts the characters of the
    occurrence still to be passed over, [cur] is the piece being built. *)
Fixpoint split_go (sep s : string) (skip : nat) (cur : string) : list string :=
  match s with
  | EmptyString => [String.rev cur]
  | String c s' =>
      match skip with
      | S k => split_go sep s' k cur
      | O =>
          if starts_with sep s
          then String.rev cur :: split_go sep s' (len sep - 1) EmptyString
          else split_go sep s' 0 (String c cur)
      end
  end.

Definition split (sep s : string) : list string := split_go sep s 0 EmptyString.

(** [s.split()]: the maximal runs of non-whitespace characters. *)
Fixpoint split_ws_go (cur : option string) (s : string) : list string :=
  match s with
  | EmptyString => option_list (String.rev <$> cur)
  | String c s' =>
      if is_space c
      then option_list (String.rev <$> cur) ++ split_ws_go None s'
      else split_ws_go (Some (String c (default EmptyString cur))) s'
  end.

Definition split_ws : string -> list string := split_ws_go None.

(** The digits of an [int] literal, underscores allowed between digits:
    [acc] is the value read so far, [prev_digit] tells whether the previous
    character was a digit. *)
Fixpoint int_digits (s : string) (acc : Z) (prev_digit : bool) : option Z :=
  match s with
  | EmptyString => if prev_digit then Some acc else None
  | String c s' =>
      if is_digit c then int_digits s' (10 * acc + digit_val c) true
      else if Ascii.eqb c "_" then
        if prev_digit then int_digits s' acc false else None
      else None
  end.

(** [int(s)] in base 10: surrounding whitespace, an optional sign, digits.
    [None] stands for [ValueError]. *)
Definition int (s : string) : option Z :=
  match strip s with
  | String "-" s' => Z.opp <$> int_digits s' 0 false
  | String "+" s' => int_digits s' 0 false
  | s' => int_digits s' 0 false
  end.

(** [str(n)] for an [int]. *)
Definition str_of_int (n : Z) : string := NilZero.string_of_int (Z.to_int n).

(** [d.get(k)] on an association list. *)
Fixpoint assoc {V} (k : string) (d : list (string * V)) : option V :=
  match d with
  | [] => None
  | (k', v) :: d' => if String.eqb k k' then Some v else assoc k d'
  end.

End Py.

(** ** [IRSEINAutomation]: the pure helpers *)

Definition STATE_MAPPING : list (string * string) :=
  [ ("ALABAMA", "AL"); ("ALASKA", "AK"); ("ARIZONA", "AZ"); ("ARKANSAS", "AR");
    ("CALIFORNIA", "CA"); ("COLORADO", "CO"); ("CONNECTICUT", "CT"); ("DELAWARE", "DE");
    ("FLORIDA", "FL"); ("GEORGIA", "GA"); ("HAWAII", "HI"); ("IDAHO", "ID");
    ("ILLINOIS", "IL"); ("INDIANA", "IN"); ("IOWA", "IA"); ("KANSAS", "KS");
    ("KENTUCKY", "KY"); ("LOUISIANA", "LA"); ("MAINE", "ME"); ("MARYLAND", "MD");
    ("MASSACHUSETTS", "MA"); ("MICHIGAN", "MI"); ("MINNESOTA", "MN"); ("MISSISSIPPI", "MS");
    ("MISSOURI", "MO"); ("MONTANA", "MT"); ("NEBRASKA", "NE"); ("NEVADA", "NV");
    ("NEW HAMPSHIRE", "NH"); ("NEW JERSEY", "NJ"); ("NEW MEXICO", "NM"); ("NEW YORK", "NY");
    ("NORTH CAROLINA", "NC"); ("NORTH DAKOTA", "ND"); ("OHIO", "OH"); ("OKLAHOMA", "OK");
    ("OREGON", "OR"); ("PENNSYLVANIA", "PA"); ("RHODE ISLAND", "RI"); ("SOUTH CAROLINA", "SC");
    ("SOUTH DAKOTA", "SD"); ("TENNESSEE", "TN"); ("TEXAS", "TX"); ("UTAH", "UT");
    ("VERMONT", "VT"); ("VIRGINIA", "VA"); ("WASHINGTON", "WA"); ("WEST VIRGINIA", "WV");
    ("WISCONSIN", "WI"); ("WYOMING", "WY"); ("DISTRICT OF COLUMBIA", "DC") ].

Definition ENTITY_TYPE_MAPPING : list (string * string) :=
  [ ("Limited Liability Company (LLC)", "limited");
    ("C-Corporation", "corporations"); ("S-Corporation", "corporations");
    ("Corporation", "corporations"); ("Sole Proprietorship", "sole");
    ("Partnership", "partnerships"); ("LLC", "limited") ].

(** [not s] for an [Optional[str]]: [None] and the empty string are falsy. *)
Definition falsy_str (s : option string) : bool :=
  match s with
  | None | Some EmptyString => true
  | Some _ => false
  end.

(** [a or b] on [Optional[str]]. *)
Definition or_str (a b : option string) : option string :=
  if falsy_str a then b else a.

Definition normalize_state (state : option string) : string :=
  match state with
  | None | Some EmptyString => "TX"
  | Some state =>
      let state_clean := Py.strip (Py.upper state) in
      match Py.assoc state_clean STATE_MAPPING with
      | Some code => code
      | None => if (Py.len state_clean =? 2)%nat then state_clean else "TX"
      end
  end.




(** ** JSON documents *)

(** A parsed JSON value, as [json.loads] and FastAPI hand it to the code. *)
Inductive json : Type :=
| JNull
| JBool (b : bool)
| JInt (n : Z)
| JFloat (mantissa exponent : Z)
| JStr (s : string)
| JList (items : list json)
| JDict (items : list (string * json)).

Abbreviation dict := (list (string * json)).

(** ** [determine_llc_members] *)

Definition PARTY_MARK : string := "responsible party-".

(** [key.lower().split("responsible party-")[-1].split()[0]];
    [None] stands for the [IndexError] of [[0]] on an empty list. *)
Definition party_num (key : string) : option string :=
  segment ← last (Py.split PARTY_MARK (Py.lower key));
  head (Py.split_ws segment).

(** The nested function [search_parties], with the set [responsible_parties]
    it updates passed through; [None] stands for a raised exception. *)
Fixpoint search_parties (data : json) (responsible_parties : gset string)
  : option (gset string) :=
  match data with
  | JDict items =>
      (fix for_items (items : dict) (parties : gset string) : option (gset string) :=
         match items with
         | [] => Some parties
         | (key, value) :: rest =>
             parties ←
               (if Py.contains PARTY_MARK (Py.lower key)
                then num ← party_num key; Some (parties ∪ {[ num ]})
                else Some parties);
             parties ←
               match value with
               | JDict _ | JList _ => search_parties value parties
               | _ => Some parties
               end;
             for_items rest parties
         end) items responsible_parties
  | JList items =>
      (fix for_item (items : list json) (parties : gset string) : option (gset string) :=
         match items with
         | [] => Some parties
         | item :: rest =>
             parties ← search_parties item parties;
             for_item rest parties
         end) items responsible_parties
  | _ => Some responsible_parties
  end.

(** [max(xs)] of a non-empty sequence. *)
Definition py_max (xs : list Z) : option Z :=
  match xs with
  | [] => None
  | x :: xs' => Some (foldl Z.max x xs')
  end.

Definition determine_llc_members (json_summary : option dict) : Z :=
  match json_summary with
  | None | Some [] => 2
  | Some items =>
      match search_parties (JDict items) ∅ with
      | None => 2
      | Some responsible_parties =>
          if decide (responsible_parties = ∅) then 2
          else
            match mapM Py.int (elements responsible_parties) ≫= py_max with
            | Some n => n
            | None => 2
            end
      end
  end.




(** ** [parse_formation_date] *)

(** The regular expressions [_strptime] builds from a format: no repetition,
    ordered alternatives, named groups. *)
Inductive regex : Type :=
| Chr (c : ascii)
| Range (lo hi : ascii)
| Digit
| Seq (r1 r2 : regex)
| Alt (r1 r2 : regex)
| Group (name : string) (r : regex).

Abbreviation captures := (list (string * string)).

(** All the ways [r] matches a prefix of [s], in the order a backtracking
    matcher tries them: the text matched, the groups, the rest of [s]. *)
Fixpoint matches (r : regex) (s : string) : list (string * captures * string) :=
  match r with
  | Chr c =>
      match s with
      | String a s' => if Ascii.eqb a c then [(String a "", [], s')] else []
      | EmptyString => []
      end
  | Range lo hi =>
      match s with
      | String a s' =>
          if ((Py.code lo <=? Py.code a) && (Py.code a <=? Py.code hi))%nat
          then [(String a "", [], s')] else []
      | EmptyString => []
      end
  | Digit =>
      match s with
      | String a s' => if Py.is_digit a then [(String a "", [], s')] else []
      | EmptyString => []
      end
  | Seq r1 r2 =>
      '(text1, groups1, s1) ← matches r1 s;
      '(text2, groups2, s2) ← matches r2 s1;
      [(text1 +:+ text2, (groups1 ++ groups2)%list, s2)]
  | Alt r1 r2 => matches r1 s ++ matches r2 s
  | Group name r =>
      '(text, groups, s') ← matches r s;
      [(text, (name, text) :: groups, s')]
  end.

(** [(?P<Y>\d\d\d\d)] *)
Definition RE_Y : regex := Group "Y" (Seq Digit (Seq Digit (Seq Digit Digit))).

(** [(?P<m>1[0-2]|0[1-9]|[1-9])] *)
Definition RE_m : regex :=
  Group "m" (Alt (Seq (Chr "1") (Range "0" "2"))
            (Alt (Seq (Chr "0") (Range "1" "9"))
                 (Range "1" "9"))).

(** [(?P<d>3[0-1]|[1-2]\d|0[1-9]|[1-9]| [1-9])] *)
Definition RE_d : regex :=
  Group "d" (Alt (Seq (Chr "3") (Range "0" "1"))
            (Alt (Seq (Range "1" "2") Digit)
            (Alt (Seq (Chr "0") (Range "1" "9"))
            (Alt (Range "1" "9")
                 (Seq (Chr " ") (Range "1" "9")))))).

(** The three formats of [parse_formation_date]. *)
Inductive date_format := Ymd_dash | mdY_slash | Ymd_slash.

(** ["%Y-%m-%d"], ["%m/%d/%Y"], ["%Y/%m/%d"] as regular expressions. *)
Definition format_regex (fmt : date_format) : regex :=
  match fmt with
  | Ymd_dash => Seq RE_Y (Seq (Chr "-") (Seq RE_m (Seq (Chr "-") RE_d)))
  | mdY_slash => Seq RE_m (Seq (Chr "/") (Seq RE_d (Seq (Chr "/") RE_Y)))
  | Ymd_slash => Seq RE_Y (Seq (Chr "/") (Seq RE_m (Seq (Chr "/") RE_d)))
  end.

Definition is_leap (year : Z) : bool :=
  (year mod 4 =? 0) && (negb (year mod 100 =? 0) || (year mod 400 =? 0)).

Definition days_in_month (year month : Z) : Z :=
  if month =? 2 then (if is_leap year then 29 else 28)
  else if (month =? 4) || (month =? 6) || (month =? 9) || (month =? 11) then 30
  else 31.

(** The dates [datetime] accepts: years 1 to 9999 of the proleptic Gregorian
    calendar. *)
Definition valid_date (year month day : Z) : bool :=
  (1 <=? year) && (year <=? 9999) && (1 <=? month) && (month <=? 12) &&
  (1 <=? day) && (day <=? days_in_month year month).

(** [datetime.strptime(s, fmt)] for the three formats; the result is
    [(year, month, day)] and [None] stands for [ValueError]: no match,
    unconverted data after the first match, or a date that does not exist. *)
Definition strptime (s : string) (fmt : date_format) : option (Z * Z * Z) :=
  '(_, found, unconverted) ← head (matches (format_regex fmt) s);
  if negb (String.eqb unconverted "") then None
  else
    year ← Py.assoc "Y" found ≫= Py.int;
    month ← Py.assoc "m" found ≫= Py.int;
    day ← Py.assoc "d" found ≫= Py.int;
    if valid_date year month day then Some (year, month, day) else None.

Definition DATE_FORMATS : list date_format := [Ymd_dash; mdY_slash; Ymd_slash].

(** The [for fmt in formats] loop: the first format that parses wins. *)
Fixpoint try_formats (s : string) (formats : list date_format) : option (Z * Z * Z) :=
  match formats with
  | [] => None
  | fmt :: rest =>
      match strptime s fmt with
      | Some parsed => Some parsed
      | None => try_formats s rest
      end
  end.

(** Returns [(month, year)]. *)
Definition parse_formation_date (date_str : option string) : Z * Z :=
  match date_str with
  | None | Some EmptyString => (6, 2024)
  | Some date_str =>
      match try_formats (Py.strip date_str) DATE_FORMATS with
      | Some (year, month, _) => (month, year)
      | None => (6, 2024)
      end
  end.

(** Rendering of a date: [strftime] with a four-digit year and two-digit
    month and day. *)
Definition digit_char (n : Z) : ascii := ascii_of_nat (48 + Z.to_nat n).

Definition two_digits (n : Z) : string :=
  String (digit_char (n / 10)) (String (digit_char (n mod 10)) "").

Definition four_digits (n : Z) : string :=
  two_digits (n / 100) +:+ two_digits (n mod 100).

Definition render (fmt : date_format) (year month day : Z) : string :=
  match fmt with
  | Ymd_dash => four_digits year +:+ "-" +:+ two_digits month +:+ "-" +:+ two_digits day
  | mdY_slash => two_digits month +:+ "/" +:+ two_digits day +:+ "/" +:+ four_digits year
  | Ymd_slash => four_digits year +:+ "/" +:+ two_digits month +:+ "/" +:+ two_digits day
  end.

(** ** Data models *)

Record CaseData : Type := {
  record_id : string;
  entity_name : option string;
  entity_type : option string;
  formation_date : option string;
  business_category : option string;
  business_description : option string;
  business_address_1 : option string;
  entity_state : option string;
  business_address_2 : option string;
  city : option string;
  zip_code : option string;
  quarter_of_first_payroll : option string;
  entity_state_record_state : option string;
  json_summary : option dict;
  summary_raw : option string;
  case_contact_name : option string;
  ssn_decrypted : option string;
  case_contact_first_name : option string;
  case_contact_last_name : option string;
  case_contact_phone : option string;
  proceed_flag : option string
}.

Record SubmitDecision : Type := {
  decision_record_id : string;
  proceed : bool
}.

(** ** The environment: browser, libraries, clock *)

Inductive locator : Type :=
| ByXPath (xpath : string)
| ById (id : string).

(** The calls the program makes outside of itself. *)
Inductive call : Type :=
| NewChromeOptions
| AddArgument (arg : string)
| AddArguments (args : list string)
| AddExperimentalOption (name : string)
| Chrome
| NewWebDriverWait (timeout : Z)
| ExecuteScript (script : string)
| Get (url : string)
| UntilClickable (loc : locator)
| Clear
| SendKeys (keys : string)
| Click
| NewSelect
| SelectByValue (value : string)
| ExecuteCdpCmd (cmd : string)
| B64Decode
| FitzOpen
| LoadPage
| GetPixmap
| PixSave (path : string)
| DocClose
| Quit
| Time
| SaveJsonData (data : CaseData)
| PostNotification (payload : dict).

Inductive outcome : Type :=
| Returns (value : Z)
| Raises (message : string).

(** One call: the automation object it was made through ([None] for a call
    of the module itself), the call and what came back. *)
Record event : Type := Event {
  who : option nat;
  what : call;
  how : outcome
}.

Record environment : Type := {
  (** What a call answers, given everything that happened before. *)
  oracle : list event -> option nat -> call -> outcome;
  (** [int(time.time())], given the same. *)
  clock : list event -> Z;
  (** [CONFIG['API_KEY']], [CONFIG['HOST_URL']], [os.getcwd()]. *)
  API_KEY : string;
  HOST_URL : string;
  cwd : string;
  (** [str(e)] of an [HTTPException(status_code, detail)]: the web framework's. *)
  http_exception_str : Z -> string -> string;
  (** What pydantic makes of a value that is neither [None] nor of the
      field's type: the coerced value, or [None] when it rejects it; and the
      message of the [ValidationError] for the rejected fields. *)
  pydantic_str : json -> option string;
  pydantic_dict : json -> option dict;
  validation_message : list (string * json) -> string
}.

(** [str(e)] of [starlette.exceptions.HTTPException]: ["<status>: <detail>"]. *)
Definition starlette_str (status : Z) (detail : string) : string :=
  Py.str_of_int status +:+ ": " +:+ detail.

(** ** Program state, exceptions and the monad of effects *)

Record world : Type := World {
  (** every call made so far, oldest first *)
  trace : list event;
  (** the automation objects whose [self.driver] is set *)
  drivers : gset nat;
  (** [session_manager.sessions] *)
  sessions : gmap string nat;
  (** the next fresh object identity *)
  next_object : nat;
  (** the [_timeout_session] tasks created and not yet run *)
  timers : list string
}.

Definition initial_world : world := World [] ∅ ∅ 0 [].

Inductive exn : Type :=
| PyError (message : string)
| HTTPException (status_code : Z) (detail : string).

Inductive res (A : Type) : Type :=
| Val (a : A)
| Exc (e : exn).
Arguments Val {A} a.
Arguments Exc {A} e.

Definition M (A : Type) : Type := world -> res A * world.

#[export] Instance res_ret : MRet res := fun A a => Val a.
#[export] Instance res_bind : MBind res := fun A B f m =>
  match m with
  | Val a => f a
  | Exc e => Exc e
  end.

#[export] Instance M_ret : MRet M := fun A a w => (Val a, w).
#[export] Instance M_bind : MBind M := fun A B f m w =>
  match m w with
  | (Val a, w') => f a w'
  | (Exc e, w') => (Exc e, w')
  end.

Definition raise {A} (e : exn) : M A := fun w => (Exc e, w).

(** [try: body except Exception as e: handler(e)] *)
Definition try_except {A} (body : M A) (handler : exn -> M A) : M A := fun w =>
  match body w with
  | (Val a, w') => (Val a, w')
  | (Exc e, w') => handler e w'
  end.

(** [try: body finally: final] *)
Definition try_finally {A} (body : M A) (final : M unit) : M A := fun w =>
  match body w with
  | (r, w') =>
      match final w' with
      | (Val _, w'') => (r, w'')
      | (Exc e, w'') => (Exc e, w'')
      end
  end.

Definition lift {A} (r : res A) : M A := fun w => (r, w).

Definition get_world : M world := fun w => (Val w, w).

Definition log_event (e : event) (w : world) : world :=
  World (trace w ++ [e]) (drivers w) (sessions w) (next_object w) (timers w).

Definition set_driver (self : nat) : M unit := fun w =>
  (Val (), World (trace w) ({[ self ]} ∪ drivers w) (sessions w) (next_object w) (timers w)).

Definition set_sessions (s : gmap string nat) : M unit := fun w =>
  (Val (), World (trace w) (drivers w) s (next_object w) (timers w)).

Definition new_object : M nat := fun w =>
  (Val (next_object w),
   World (trace w) (drivers w) (sessions w) (S (next_object w)) (timers w)).

Definition create_task (record_id : string) : M unit := fun w =>
  (Val (), World (trace w) (drivers w) (sessions w) (next_object w) (timers w ++ [record_id])).

(** [str(e)] *)
Definition exn_str (E : environment) (e : exn) : string :=
  match e with
  | PyError message => message
  | HTTPException status detail => http_exception_str E status detail
  end.

Section Program.

Variable E : environment.

(** A call into the environment: ask the oracle, record the event. *)
Definition env_call (self : option nat) (c : call) : M Z := fun w =>
  let o := oracle E (trace w) self c in
  let w' := log_event (Event self c o) w in
  match o with
  | Returns v => (Val v, w')
  | Raises message => (Exc (PyError message), w')
  end.

Definition truthy (v : Z) : bool := negb (v =? 0).

(** [int(time.time())]: the clock is read, nothing can go wrong. *)
Definition time_now (self : nat) : M Z := fun w =>
  let now := clock E (trace w) in
  (Val now, log_event (Event (Some self) Time (Returns now)) w).

(** ** [FormAutomationBase] *)

(** [IRSEINAutomation.__init__]: [headless=False, timeout=10]. *)
Definition HEADLESS : bool := false.
Definition TIMEOUT : Z := 10.

Definition CHROME_ARGUMENTS : list string :=
  [ "--disable-gpu"; "--no-sandbox"; "--disable-dev-shm-usage";
    "--disable-blink-features=AutomationControlled"; "--disable-infobars";
    "--window-size=1920,1080"; "--start-maximized" ].

(** The script of [_disable_popups], on one line. *)
Definition DISABLE_POPUPS_SCRIPT : string :=
  "window.alert = function() { return true; }; " +:+
  "window.confirm = function() { return true; }; " +:+
  "window.prompt = function() { return null; }; " +:+
  "window.open = function() { return null; };".
Definition SCROLL_SCRIPT : string := "arguments[0].scrollIntoView({block: 'center'});".

Definition _disable_popups (self : nat) : M unit :=
  env_call (Some self) (ExecuteScript DISABLE_POPUPS_SCRIPT);; mret ().

Definition init_browser (self : nat) : M unit :=
  env_call (Some self) NewChromeOptions;;
  (if HEADLESS then env_call (Some self) (AddArgument "--headless") else mret 0);;
  env_call (Some self) (AddArguments CHROME_ARGUMENTS);;
  env_call (Some self) (AddExperimentalOption "prefs");;
  env_call (Some self) Chrome;;
  set_driver self;;
  env_call (Some self) (NewWebDriverWait TIMEOUT);;
  _disable_popups self.

Definition fill_field (self : nat) (loc : locator) (value : string) : M bool :=
  if String.eqb value "" || String.eqb (Py.strip value) "" then mret false
  else
    try_except
      (env_call (Some self) (UntilClickable loc);;
       env_call (Some self) (ExecuteScript SCROLL_SCRIPT);;
       env_call (Some self) Clear;;
       env_call (Some self) (SendKeys value);;
       mret true)
      (fun _ => mret false).

(** The [for attempt in range(retries + 1)] loop of [click_button];
    [attempts_left] counts the attempts after the current one. *)
Fixpoint click_attempts (self : nat) (loc : locator) (attempts_left : nat) : M bool :=
  try_except
    (env_call (Some self) (UntilClickable loc);;
     env_call (Some self) (ExecuteScript SCROLL_SCRIPT);;
     env_call (Some self) Click;;
     mret true)
    (fun _ =>
       match attempts_left with
       | O => mret false
       | S n => click_attempts self loc n
       end).

(** [click_button(locator, desc)] with the default [retries=2]. *)
Definition click_button (self : nat) (loc : locator) : M bool :=
  click_attempts self loc 2.

Definition radio_script (radio_id : string) : string :=
  "document.getElementById('" +:+ radio_id +:+ "').checked = true; return true;".

(** [select_radio] returns [True], [False] or, when the script answers a
    falsy value, nothing ([None]). *)
Definition select_radio (self : nat) (radio_id : string) : M (option bool) :=
  try_except
    (v ← env_call (Some self) (ExecuteScript (radio_script radio_id));
     if truthy v then mret (Some true) else mret None)
    (fun _ => mret (Some false)).

Definition select_dropdown (self : nat) (loc : locator) (value : string) : M bool :=
  try_except
    (env_call (Some self) (UntilClickable loc);;
     env_call (Some self) NewSelect;;
     env_call (Some self) (SelectByValue value);;
     mret true)
    (fun _ => mret false).

(** [CONFIG['STATIC_DIR']] *)
Definition STATIC_DIR : string := cwd E +:+ "/static".

Definition capture_page_as_png (self : nat) (filename : string)
  : M (option string * option string) :=
  try_except
    (env_call (Some self) (ExecuteCdpCmd "Page.printToPDF");;
     env_call (Some self) B64Decode;;
     env_call (Some self) FitzOpen;;
     env_call (Some self) LoadPage;;
     env_call (Some self) GetPixmap;;
     let png_path := STATIC_DIR +:+ "/" +:+ filename in
     env_call (Some self) (PixSave png_path);;
     env_call (Some self) DocClose;;
     let png_url := HOST_URL E +:+ "/static/" +:+ filename in
     mret (Some png_path, Some png_url))
    (fun _ => mret (None, None)).

Definition cleanup (self : nat) : M unit :=
  w ← get_world;
  if decide (self ∈ drivers w)
  then try_except (env_call (Some self) Quit;; mret ()) (fun _ => mret ())
  else mret ().

(** ** [IRSEINAutomation.run_automation] *)

Definition IRS_URL : string := "https://sa.www4.irs.gov/modiein/individual/index.jsp".
Definition BEGIN_BUTTON : locator := ByXPath "//input[@value='Begin Application >>']".
Definition CONTINUE_BUTTON : locator := ByXPath "//input[@value='Continue >>']".

(** [self.ENTITY_TYPE_MAPPING.get(data.entity_type or "LLC", "limited")] *)
Definition entity_radio (data : CaseData) : string :=
  default "limited"
    (Py.assoc (default "LLC" (or_str (entity_type data) (Some "LLC"))) ENTITY_TYPE_MAPPING).

(** [_fill_remaining_steps] is [pass]. *)
Definition _fill_remaining_steps (self : nat) (data : CaseData) : M unit := mret ().

(** Step 5 of the wizard, under [if llc_members == 2]. *)
Definition multi_member_step (self : nat) : M unit :=
  select_radio self "radio_n";;
  click_button self CONTINUE_BUTTON;;
  mret ().

Definition png_filename (data : CaseData) (now : Z) : string :=
  "print_" +:+ record_id data +:+ "_" +:+ Py.str_of_int now +:+ ".png".

Definition run_automation (self : nat) (data : CaseData)
  : M (bool * string * option string * option string) :=
  try_except
    (init_browser self;;
     env_call (Some self) (Get IRS_URL);;
     click_button self BEGIN_BUTTON;;
     select_radio self (entity_radio data);;
     click_button self CONTINUE_BUTTON;;
     click_button self CONTINUE_BUTTON;;
     let llc_members := determine_llc_members (json_summary data) in
     fill_field self (ById "numbermem") (Py.str_of_int llc_members);;
     let state_value :=
       normalize_state (or_str (entity_state data) (entity_state_record_state data)) in
     select_dropdown self (ById "state") state_value;;
     click_button self CONTINUE_BUTTON;;
     (if llc_members =? 2 then multi_member_step self else mret ());;
     _fill_remaining_steps self data;;
     now ← time_now self;
     '(png_path, png_url) ← capture_page_as_png self (png_filename data now);
     mret (true, "Form completed successfully", png_path, png_url))
    (fun e => mret (false, exn_str E e, None, None)).

(** ** [SessionManager] *)

Definition store_session (record_id : string) (automation : nat) : M unit :=
  w ← get_world;
  set_sessions (<[ record_id := automation ]> (sessions w)).

Definition get_session (record_id : string) : M (option nat) :=
  w ← get_world;
  mret (sessions w !! record_id).

Definition remove_session (record_id : string) : M unit :=
  w ← get_world;
  match sessions w !! record_id with
  | Some automation =>
      set_sessions (delete record_id (sessions w));;
      cleanup automation
  | None => mret ()
  end.

(** ** [DataProcessor] *)

(** [save_json_data]: the whole body sits in a [try]; it answers a [bool]. *)
Definition save_json_data (data : CaseData) : M bool :=
  try_except (env_call None (SaveJsonData data);; mret true) (fun _ => mret false).

Definition type_name (v : json) : string :=
  match v with
  | JNull => "NoneType"
  | JBool _ => "bool"
  | JInt _ => "int"
  | JFloat _ _ => "float"
  | JStr _ => "str"
  | JList _ => "list"
  | JDict _ => "dict"
  end.

(** [obj.get(key, default)]: only a [dict] has the method. *)
Definition py_get (obj : json) (key : string) (default_value : json) : res json :=
  match obj with
  | JDict items => Val (default default_value (Py.assoc key items))
  | _ => Exc (PyError ("'" +:+ type_name obj +:+ "' object has no attribute 'get'"))
  end.

(** Validation of an [Optional[str]] and of an [Optional[dict]] field: the
    value kept, and the field when pydantic rejects it. *)
Definition field_str (name : string) (v : json) : option string * list (string * json) :=
  match v with
  | JNull => (None, [])
  | JStr s => (Some s, [])
  | _ =>
      match pydantic_str E v with
      | Some s => (Some s, [])
      | None => (None, [(name, v)])
      end
  end.

Definition field_dict (name : string) (v : json) : option dict * list (string * json) :=
  match v with
  | JNull => (None, [])
  | JDict items => (Some items, [])
  | _ =>
      match pydantic_dict E v with
      | Some items => (Some items, [])
      | None => (None, [(name, v)])
      end
  end.

Definition map_form_automation_data (form_data : dict) : res CaseData :=
  form_automation ← py_get (JDict form_data) "Form_Automation__c" (JDict []);
  let entity key := py_get form_automation "Entity__r" (JDict []) ≫= fun o => py_get o key JNull in
  let member key := py_get form_automation "Entity_Member__r" (JDict []) ≫= fun o => py_get o key JNull in
  entity_name ← entity "Name";
  entity_type ← entity "Entity_Type__c";
  formation_date ← entity "Formation_Date__c";
  business_category ← entity "Business_Category__c";
  business_description ← entity "Business_Description__c";
  business_address_1 ← entity "Business_Address_1__c";
  entity_state ← py_get form_automation "Entity_State__r" (JDict []) ≫= (fun o => py_get o "State__c" JNull);
  city ← entity "City__c";
  zip_code ← entity "Zip_Code__c";
  json_summary ← py_get form_automation "Case__r" (JDict []) ≫= (fun o => py_get o "JSON_Summary__c" JNull);
  ssn_decrypted ← py_get form_automation "Contact__r" (JDict []) ≫= (fun o => py_get o "SSN_Decrypted__c" JNull);
  case_contact_first_name ← member "FirstName__c";
  case_contact_last_name ← member "LastName__c";
  case_contact_phone ← member "Phone__c";
  proceed_flag ← py_get form_automation "proceed_flag" (JStr "true");
  let f1 := field_str "entity_name" entity_name in
  let f2 := field_str "entity_type" entity_type in
  let f3 := field_str "formation_date" formation_date in
  let f4 := field_str "business_category" business_category in
  let f5 := field_str "business_description" business_description in
  let f6 := field_str "business_address_1" business_address_1 in
  let f7 := field_str "entity_state" entity_state in
  let f8 := field_str "city" city in
  let f9 := field_str "zip_code" zip_code in
  let f10 := field_dict "json_summary" json_summary in
  let f11 := field_str "ssn_decrypted" ssn_decrypted in
  let f12 := field_str "case_contact_first_name" case_contact_first_name in
  let f13 := field_str "case_contact_last_name" case_contact_last_name in
  let f14 := field_str "case_contact_phone" case_contact_phone in
  let f15 := field_str "proceed_flag" proceed_flag in
  let rejected :=
    (f1.2 ++ f2.2 ++ f3.2 ++ f4.2 ++ f5.2 ++ f6.2 ++ f7.2 ++ f8.2 ++ f9.2 ++ f10.2 ++
     f11.2 ++ f12.2 ++ f13.2 ++ f14.2 ++ f15.2)%list in
  match rejected with
  | [] =>
      Val {| record_id := "temp_record_id";
             entity_name := f1.1;
             entity_type := f2.1;
             formation_date := f3.1;
             business_category := f4.1;
             business_description := f5.1;
             business_address_1 := f6.1;
             entity_state := f7.1;
             business_address_2 := None;
             city := f8.1;
             zip_code := f9.1;
             quarter_of_first_payroll := None;
             entity_state_record_state := None;
             json_summary := f10.1;
             summary_raw := None;
             case_contact_name := None;
             ssn_decrypted := f11.1;
             case_contact_first_name := f12.1;
             case_contact_last_name := f13.1;
             case_contact_phone := f14.1;
             proceed_flag := f15.1 |}
  | _ => Exc (PyError (validation_message E rejected))
  end.

(** ** The HTTP endpoints *)

Definition opt_str (s : option string) : json :=
  match s with
  | Some s => JStr s
  | None => JNull
  end.

Definition _send_completion_notification
    (record_id status message : string) (png_url : option string) : M unit :=
  let payload :=
    [ ("record_id", JStr record_id); ("status", JStr status);
      ("message", JStr message); ("png_url", opt_str png_url) ] in
  try_except (env_call None (PostNotification payload);; mret ()) (fun _ => mret ()).

(** [_timeout_session], once its [asyncio.sleep] is over. *)
Definition _timeout_session (record_id : string) : M unit :=
  remove_session record_id.

Definition run_irs_ein_endpoint (data : dict) (authorization : option string) : M dict :=
  if negb (bool_decide (authorization = Some ("Bearer " +:+ API_KEY E)))
  then raise (HTTPException 401 "Invalid API key")
  else
    try_except
      (case_data ← lift (map_form_automation_data data);
       save_json_data case_data;;
       automation ← new_object;
       '(success, message, png_path, png_url) ← run_automation automation case_data;
       if success : bool then
         store_session (record_id case_data) automation;;
         _send_completion_notification (record_id case_data) "Completed" message png_url;;
         create_task (record_id case_data);;
         mret [ ("message",
                 JStr ("Process completed. Use /submit-decision with record_id: "
                       +:+ record_id case_data));
                ("status", JStr "Completed");
                ("record_id", JStr (record_id case_data));
                ("png_url", opt_str png_url) ]
       else
         cleanup automation;;
         raise (HTTPException 500 message))
      (fun e => raise (HTTPException 500 (exn_str E e))).

Definition submit_decision_endpoint (decision : SubmitDecision) : M dict :=
  automation ← get_session (decision_record_id decision);
  match automation with
  | None => raise (HTTPException 404 "Session not found")
  | Some _ =>
      try_finally
        (let message :=
           if proceed decision then "Form submitted successfully" else "Process cancelled" in
         mret [ ("record_id", JStr (decision_record_id decision));
                ("message", JStr message);
                ("status", JStr "Completed") ])
        (remove_session (decision_record_id decision))
  end.

End Program.

(** What the web framework sends back for a handler's result. *)
Inductive response : Type :=
| Ok200 (body : dict)
| HTTPError (status : Z) (detail : string).

Definition respond (r : res dict) : response :=
  match r with
  | Val body => Ok200 body
  | Exc (HTTPException status detail) => HTTPError status detail
  | Exc (PyError _) => HTTPError 500 "Internal Server Error"
  end.

(** ** Observations on a world *)

(** The browser of an automation object is live from the moment [uc.Chrome]
    returns until [quit] is called on it. *)
Definition live_step (self : nat) (alive : bool) (e : event) : bool :=
  match e with
  | Event (Some a) Chrome (Returns _) => if decide (a = self) then true else alive
  | Event (Some a) Quit _ => if decide (a = self) then false else alive
  | _ => alive
  end.

Definition live (w : world) (self : nat) : bool :=
  foldl (live_step self) false (trace w).

(** The automation object is parked in the session store. *)
Definition stored (w : world) (self : nat) : Prop :=
  ∃ record_id, sessions w !! record_id = Some self.

(** The invariant of the session store: the live browsers are exactly those
    of the stored automation objects. *)
Definition store_invariant (w : world) : Prop :=
  ∀ self, live w self = true ↔ stored w self.

(** The calls of a run, without their outcomes. *)
Definition calls (w : world) : list call := what <$> trace w.

(** An environment in which every call returns [1], at second [now]. *)
Definition calm (now : Z) : environment :=
  {| oracle := fun _ _ _ => Returns 1;
     clock := fun _ => now;
     API_KEY := "key";
     HOST_URL := "http://localhost:8000";
     cwd := "/srv";
     http_exception_str := starlette_str;
     pydantic_str := fun _ => None;
     pydantic_dict := fun _ => None;
     validation_message := fun _ => "validation error" |}.

(** An environment in which the browser cannot be started. *)
Definition no_browser (message : string) : environment :=
  {| oracle := fun _ _ c => match c with Chrome => Raises message | _ => Returns 1 end;
     clock := fun _ => 0;
     API_KEY := "key";
     HOST_URL := "http://localhost:8000";
     cwd := "/srv";
     http_exception_str := starlette_str;
     pydantic_str := fun _ => None;
     pydantic_dict := fun _ => None;
     validation_message := fun _ => "validation error" |}.

(** An environment in which printing the page fails. *)
Definition no_capture (message : string) : environment :=
  {| oracle := fun _ _ c =>
       match c with ExecuteCdpCmd _ => Raises message | _ => Returns 1 end;
     clock := fun _ => 0;
     API_KEY := "key";
     HOST_URL := "http://localhost:8000";
     cwd := "/srv";
     http_exception_str := starlette_str;
     pydantic_str := fun _ => None;
     pydantic_dict := fun _ => None;
     validation_message := fun _ => "validation error" |}.

Definition empty_case : CaseData :=
  {| record_id := "temp_record_id"; entity_name := None; entity_type := None;
     formation_date := None; business_category := None; business_description := None;
     business_address_1 := None; entity_state := None; business_address_2 := None;
     city := None; zip_code := None; quarter_of_first_payroll := None;
     entity_state_record_state := None; json_summary := None; summary_raw := None;
     case_contact_name := None; ssn_decrypted := None; case_contact_first_name := None;
     case_contact_last_name := None; case_contact_phone := None;
     proceed_flag := Some "true" |}.


(** A world with one automation object, its browser running, parked under
    "temp_record_id". *)
Definition parked_world : world :=
  World [Event (Some 0%nat) Chrome (Returns 1)] {[ 0%nat ]}
        (<[ "temp_record_id" := 0%nat ]> ∅) 1 ["temp_record_id"].

(** A record with entity type "LLC" and no JSON summary. *)
Definition llc_case : CaseData :=
  {| record_id := "temp_record_id"; entity_name := None; entity_type := Some "LLC";
     formation_date := None; business_category := None; business_description := None;
     business_address_1 := None; entity_state := None; business_address_2 := None;
     city := None; zip_code := None; quarter_of_first_payroll := None;
     entity_state_record_state := None; json_summary := None; summary_raw := None;
     case_contact_name := None; ssn_decrypted := None; case_contact_first_name := None;
     case_contact_last_name := None; case_contact_phone := None;
     proceed_flag := Some "true" |}.

(** ** Notions used to state the properties *)



(** No character of [s] is whitespace. *)
Fixpoint no_space (s : string) : bool :=
  match s with
  | EmptyString => true
  | String c s' => negb (Py.is_space c) && no_space s'
  end.

(** The first way [r] matches a prefix of [s], the one [re.match] reports. *)
Definition first_match (r : regex) (s : string) (m : string * captures * string) : Prop :=
  ∃ alternatives, matches r s = m :: alternatives.

(** ** Notions used to state what a run does *)

(** The calls that only [capture_page_as_png] makes. *)
Definition is_capture_call (c : call) : bool :=
  match c with
  | ExecuteCdpCmd _ | B64Decode | FitzOpen | LoadPage | GetPixmap | PixSave _ | DocClose => true
  | _ => false
  end.

(** The script of [select_radio("radio_n", ...)]. *)
Definition is_radio_n (c : call) : bool :=
  match c with
  | ExecuteScript script => String.eqb script (radio_script "radio_n")
  | _ => false
  end.

(** An event of neither kind. *)
Definition quiet (e : event) : bool :=
  negb (is_capture_call (what e)) && negb (is_radio_n (what e)).

Definition raised (e : event) : Prop := ∃ message, how e = Raises message.
Definition returned (e : event) : Prop := ∃ value, how e = Returns value.


(** The events a computation adds to the trace of [w]. *)
Definition new_events (w w' : world) : list event := drop (length (trace w)) (trace w').

(** [m] run from any world ends with a result and a list of new events that
    satisfy [Q]; it leaves the session store, the timers and the object
    counter alone and forgets no driver. *)
Definition wp {A} (m : M A) (Q : res A → list event → Prop) : Prop :=
  ∀ w, ∃ r w' evs,
    m w = (r, w') ∧ trace w' = (trace w ++ evs)%list ∧
    sessions w' = sessions w ∧ timers w' = timers w ∧
    next_object w' = next_object w ∧ drivers w ⊆ drivers w' ∧
    Q r evs.

(** What a run of [run_automation] amounts to. *)
Definition run_post (E : environment) (self : nat) (data : CaseData)
    (r : res (bool * string * option string * option string)) (evs : list event) : Prop :=
  match r with
  | Exc _ => False
  | Val (true, message, png_path, png_url) =>
      message = "Form completed successfully" ∧
      ∃ before branch now capture,
        evs = (before ++ branch ++ [Event (Some self) Time (Returns now)] ++ capture)%list ∧
        Forall (λ e, quiet e = true) before ∧
        (if determine_llc_members (json_summary data) =? 2
         then ∃ o1 o2 more,
             branch = Event (Some self) (ExecuteScript (radio_script "radio_n")) o1
                      :: Event (Some self) (UntilClickable CONTINUE_BUTTON) o2 :: more ∧
             Forall (λ e, quiet e = true) more
         else branch = []) ∧
        Forall (λ e, is_capture_call (what e) = true) capture ∧
        ((png_path = None ∧ png_url = None ∧ Exists raised capture) ∨
         (png_path = Some (STATIC_DIR E +:+ "/" +:+ png_filename data now) ∧
          png_url = Some (HOST_URL E +:+ "/static/" +:+ png_filename data now) ∧
          Forall returned capture))
  | Val (false, message, png_path, png_url) =>
      png_path = None ∧ png_url = None ∧
      Forall (λ e, quiet e = true) evs ∧
      ∃ before c, evs = (before ++ [Event (Some self) c (Raises message)])%list
  end.

(** ** More of [IRSEINAutomation] and of the module *)

(** [_get_defaults]: the dictionary of fallback values, in source order. *)
Definition _get_defaults (data : CaseData) : list (string * string) :=
  let or_default (field : option string) (fallback : string) : string :=
    default fallback (or_str field (Some fallback)) in
  [ ("first_name", or_default (case_contact_first_name data) "Rob");
    ("last_name", or_default (case_contact_last_name data) "Chuchla");
    ("ssn_decrypted", or_default (ssn_decrypted data) "123456789");
    ("entity_name", or_default (entity_name data) "Lane Four Capital Partners LLC");
    ("business_address_1", or_default (business_address_1 data) "3315 Cherry Ln");
    ("city", or_default (city data) "Austin");
    ("zip_code", or_default (zip_code data) "78703");
    ("business_description",
     or_default (business_description data) "Any and all lawful business");
    ("formation_date", or_default (formation_date data) "2024-06-24") ].

(** The radio identifiers of [ENTITY_TYPE_MAPPING]. *)
Definition ENTITY_RADIOS : list string := ["limited"; "corporations"; "sole"; "partnerships"].

(** [s.endswith(suffix)] *)
Definition ends_with (suffix s : string) : bool :=
  Py.starts_with (String.rev suffix) (String.rev s).

(** [sorted(names)]: insertion into a list kept in ascending order; strings
    compare by code point. *)
Fixpoint insert_sorted (name : string) (sorted : list string) : list string :=
  match sorted with
  | [] => [name]
  | first :: rest =>
      if String.leb name first then name :: sorted else first :: insert_sorted name rest
  end.

Definition py_sorted (names : list string) : list string :=
  foldr insert_sorted [] names.

(** [download_screenshot(record_id)], given what [os.listdir] of the static
    directory answers: the path served, or [None] for HTTP 404. *)
Definition download_screenshot (static_dir : string) (listing : list string)
    (record_id : string) : option string :=
  let png_files :=
    filter (λ f, Py.starts_with ("print_" +:+ record_id +:+ "_") f = true ∧
                 ends_with ".png" f = true) listing in
  match last (py_sorted png_files) with
  | None => None
  | Some latest => Some (static_dir +:+ "/" +:+ latest)
  end.

(** The call that starts an attempt of [click_button]. *)
Definition is_wait (e : event) : bool :=
  match what e with
  | UntilClickable _ => true
  | _ => false
  end.

Definition has_raised (e : event) : bool :=
  match how e with
  | Raises _ => true
  | Returns _ => false
  end.

(** The authorization header the endpoint accepts. *)
Definition bearer (E : environment) : option string := Some ("Bearer " +:+ API_KEY E).

(** ** Notions used for the life of a browser *)







(** * Properties *)

(** ** Strings *)



(** ** Phone numbers *)



(** ** State codes *)



(** ** LLC members *)













(** ** Formation dates *)

Lemma digit_cases (k : Z) :
  0 <= k <= 9 →
  k = 0 ∨ k = 1 ∨ k = 2 ∨ k = 3 ∨ k = 4 ∨ k = 5 ∨ k = 6 ∨ k = 7 ∨ k = 8 ∨ k = 9.
Proof. lia. Qed.

Lemma digit_char_digit (k : Z) : 0 <= k <= 9 → Py.is_digit (digit_char k) = true.
Proof. intros H. destruct (digit_cases k H) as [->|[->|[->|[->|[->|[->|[->|[->|[->| ->]]]]]]]]]; reflexivity. Qed.

Lemma digit_char_no_space (k : Z) : 0 <= k <= 9 → Py.is_space (digit_char k) = false.
Proof. intros H. destruct (digit_cases k H) as [->|[->|[->|[->|[->|[->|[->|[->|[->| ->]]]]]]]]]; reflexivity. Qed.

Lemma no_space_app (s1 s2 : string) :
  no_space (s1 +:+ s2) = no_space s1 && no_space s2.
Proof.
  induction s1 as [|c s1 IH]; [reflexivity|].
  change (String c s1 +:+ s2) with (String c (s1 +:+ s2)).
  cbn [no_space]. rewrite IH. apply andb_assoc.
Qed.

Lemma no_space_two_digits (n : Z) : 0 <= n <= 99 → no_space (two_digits n) = true.
Proof.
  intros H. unfold two_digits. cbn [no_space].
  rewrite !digit_char_no_space by (Z.div_mod_to_equations; lia). reflexivity.
Qed.

Lemma no_space_four_digits (n : Z) : 0 <= n <= 9999 → no_space (four_digits n) = true.
Proof.
  intros H. unfold four_digits. rewrite no_space_app, !no_space_two_digits by (Z.div_mod_to_equations; lia).
  reflexivity.
Qed.

Lemma rstrip_no_space (s : string) : no_space s = true → Py.rstrip s = s.
Proof.
  induction s as [|c s IH]; [reflexivity|].
  cbn [no_space Py.rstrip]. intros [Hc Hs]%andb_prop. rewrite (IH Hs).
  destruct s; [|reflexivity]. apply negb_true_iff in Hc. rewrite Hc. reflexivity.
Qed.

Lemma strip_no_space (s : string) : no_space s = true → Py.strip s = s.
Proof.
  intros H. unfold Py.strip.
  assert (Py.lstrip s = s) as ->; [|by apply rstrip_no_space].
  destruct s as [|c s]; [reflexivity|].
  cbn [no_space Py.lstrip] in *. apply andb_prop in H as [Hc _]. apply negb_true_iff in Hc.
  rewrite Hc. reflexivity.
Qed.

(** [int] reads back what [two_digits] and [four_digits] print. *)
Lemma int_two_digits (n : Z) : 0 <= n <= 99 → Py.int (two_digits n) = Some n.
Proof.
  intros H.
  assert (Hall : forallb (λ k, match Py.int (two_digits (Z.of_nat k)) with
                               | Some v => v =? Z.of_nat k
                               | None => false
                               end) (seq 0 (Z.to_nat 100)) = true) by (vm_compute; reflexivity).
  rewrite forallb_forall in Hall.
  assert (Hin : In (Z.to_nat n) (seq 0 (Z.to_nat 100))) by (apply in_seq; lia).
  specialize (Hall _ Hin). rewrite Z2Nat.id in Hall by lia.
  destruct (Py.int (two_digits n)) as [v|]; [|discriminate Hall].
  f_equal. apply Z.eqb_eq, Hall.
Qed.

Lemma int_four_digits (n : Z) : 0 <= n <= 9999 → Py.int (four_digits n) = Some n.
Proof.
  intros H.
  assert (Hall : forallb (λ k, match Py.int (four_digits (Z.of_nat k)) with
                               | Some v => v =? Z.of_nat k
                               | None => false
                               end) (seq 0 (Z.to_nat 10000)) = true) by (vm_compute; reflexivity).
  rewrite forallb_forall in Hall.
  assert (Hin : In (Z.to_nat n) (seq 0 (Z.to_nat 10000))) by (apply in_seq; lia).
  specialize (Hall _ Hin). rewrite Z2Nat.id in Hall by lia.
  destruct (Py.int (four_digits n)) as [v|]; [|discriminate Hall].
  f_equal. apply Z.eqb_eq, Hall.
Qed.

Lemma four_digits_chars (n : Z) :
  0 <= n <= 9999 →
  ∃ c1 c2 c3 c4,
    four_digits n = String c1 (String c2 (String c3 (String c4 ""))) ∧
    Py.is_digit c1 = true ∧ Py.is_digit c2 = true ∧
    Py.is_digit c3 = true ∧ Py.is_digit c4 = true.
Proof.
  intros H. eexists _, _, _, _. split; [reflexivity|].
  repeat split; apply digit_char_digit; Z.div_mod_to_equations; lia.
Qed.

Lemma matches_RE_Y (c1 c2 c3 c4 : ascii) (rest : string) :
  Py.is_digit c1 = true → Py.is_digit c2 = true →
  Py.is_digit c3 = true → Py.is_digit c4 = true →
  let text := String c1 (String c2 (String c3 (String c4 ""))) in
  matches RE_Y (String c1 (String c2 (String c3 (String c4 rest)))) =
  [(text, [("Y", text)], rest)].
Proof.
  intros H1 H2 H3 H4. unfold RE_Y. cbn [matches].
  rewrite H1. cbn. rewrite H2. cbn. rewrite H3. cbn. rewrite H4. reflexivity.
Qed.

Lemma first_match_Y (n : Z) (rest : string) :
  0 <= n <= 9999 →
  first_match RE_Y (four_digits n +:+ rest) (four_digits n, [("Y", four_digits n)], rest).
Proof.
  intros H. destruct (four_digits_chars n H) as (c1 & c2 & c3 & c4 & -> & H1 & H2 & H3 & H4).
  exists []. apply (matches_RE_Y c1 c2 c3 c4 rest H1 H2 H3 H4).
Qed.

Lemma first_match_Chr (c : ascii) (rest : string) :
  first_match (Chr c) (String c rest) (String c "", [], rest).
Proof. exists []. simpl. rewrite Ascii.eqb_refl. reflexivity. Qed.

Lemma first_match_Seq (r1 r2 : regex) (s s1 s2 t1 t2 : string) (g1 g2 : captures) :
  first_match r1 s (t1, g1, s1) → first_match r2 s1 (t2, g2, s2) →
  first_match (Seq r1 r2) s (t1 +:+ t2, (g1 ++ g2)%list, s2).
Proof.
  intros [alts1 H1] [alts2 H2]. unfold first_match. cbn [matches].
  rewrite H1. cbn. rewrite H2. cbn. eauto.
Qed.

Lemma first_match_m (n : Z) (rest : string) :
  1 <= n <= 12 →
  first_match RE_m (two_digits n +:+ rest) (two_digits n, [("m", two_digits n)], rest).
Proof.
  intros H.
  assert (n = 1 ∨ n = 2 ∨ n = 3 ∨ n = 4 ∨ n = 5 ∨ n = 6 ∨ n = 7 ∨ n = 8 ∨ n = 9 ∨
          n = 10 ∨ n = 11 ∨ n = 12) as Hn by lia.
  repeat destruct Hn as [->|Hn]; try subst n; eexists; vm_compute; reflexivity.
Qed.

Lemma first_match_d (n : Z) (rest : string) :
  1 <= n <= 31 →
  first_match RE_d (two_digits n +:+ rest) (two_digits n, [("d", two_digits n)], rest).
Proof.
  intros H.
  assert (n = 1 ∨ n = 2 ∨ n = 3 ∨ n = 4 ∨ n = 5 ∨ n = 6 ∨ n = 7 ∨ n = 8 ∨ n = 9 ∨
          n = 10 ∨ n = 11 ∨ n = 12 ∨ n = 13 ∨ n = 14 ∨ n = 15 ∨ n = 16 ∨ n = 17 ∨
          n = 18 ∨ n = 19 ∨ n = 20 ∨ n = 21 ∨ n = 22 ∨ n = 23 ∨ n = 24 ∨ n = 25 ∨
          n = 26 ∨ n = 27 ∨ n = 28 ∨ n = 29 ∨ n = 30 ∨ n = 31) as Hn by lia.
  repeat destruct Hn as [->|Hn]; try subst n; eexists; vm_compute; reflexivity.
Qed.


(** The first match of a format on a date rendered in that format. *)
Lemma first_match_render (fmt : date_format) (year month day : Z) :
  1 <= year <= 9999 → 1 <= month <= 12 → 1 <= day <= 31 →
  ∃ text groups,
    first_match (format_regex fmt) (render fmt year month day) (text, groups, "") ∧
    Py.assoc "Y" groups = Some (four_digits year) ∧
    Py.assoc "m" groups = Some (two_digits month) ∧
    Py.assoc "d" groups = Some (two_digits day).
Proof.
  intros Hy Hm Hd.
  pose proof (first_match_d day "" Hd) as Hday.
  replace (two_digits day +:+ "") with (two_digits day) in Hday by reflexivity.
  assert (Hyear : first_match RE_Y (four_digits year)
                    (four_digits year, [("Y", four_digits year)], "")).
  { assert (Hy0 : 0 <= year <= 9999) by lia.
    pose proof (first_match_Y year "" Hy0) as Hyear.
    destruct (four_digits_chars year Hy0) as (c1 & c2 & c3 & c4 & Heq & _).
    rewrite Heq in *. exact Hyear. }
  destruct fmt; eexists _, _; (split; [|split; [|split]]).
  - unfold format_regex, render.
    eapply first_match_Seq; [apply first_match_Y; lia|].
    eapply first_match_Seq; [apply first_match_Chr|].
    eapply first_match_Seq; [apply first_match_m, Hm|].
    eapply first_match_Seq; [apply first_match_Chr|]. exact Hday.
  - reflexivity.
  - reflexivity.
  - reflexivity.
  - unfold format_regex, render.
    eapply first_match_Seq; [apply first_match_m, Hm|].
    eapply first_match_Seq; [apply first_match_Chr|].
    eapply first_match_Seq; [apply first_match_d, Hd|].
    eapply first_match_Seq; [apply first_match_Chr|].
    exact Hyear.
  - reflexivity.
  - reflexivity.
  - reflexivity.
  - unfold format_regex, render.
    eapply first_match_Seq; [apply first_match_Y; lia|].
    eapply first_match_Seq; [apply first_match_Chr|].
    eapply first_match_Seq; [apply first_match_m, Hm|].
    eapply first_match_Seq; [apply first_match_Chr|]. exact Hday.
  - reflexivity.
  - reflexivity.
  - reflexivity.
Qed.


(** A text whose third character is a slash does not start with a year. *)
Lemma matches_RE_Y_slash (a b : ascii) (rest : string) :
  matches RE_Y (String a (String b (String "/" rest))) = [].
Proof.
  unfold RE_Y. cbn [matches].
  destruct (Py.is_digit a); [|reflexivity]. cbn.
  destruct (Py.is_digit b); reflexivity.
Qed.

Lemma strptime_dash_on_mdY (year month day : Z) :
  strptime (render mdY_slash year month day) Ymd_dash = None.
Proof.
  unfold strptime, format_regex, render, two_digits. cbn [matches].
  change (String ?a (String ?b "") +:+ "/" +:+ ?r) with (String a (String b (String "/" r))).
  rewrite matches_RE_Y_slash. reflexivity.
Qed.

Lemma strptime_dash_on_Ymd_slash (year month day : Z) :
  1 <= year <= 9999 →
  strptime (render Ymd_slash year month day) Ymd_dash = None.
Proof.
  intros Hy. unfold strptime, format_regex, render. cbn [matches].
  assert (Hy0 : 0 <= year <= 9999) by lia.
  destruct (four_digits_chars year Hy0) as (c1 & c2 & c3 & c4 & -> & H1 & H2 & H3 & H4).
  change (String c1 (String c2 (String c3 (String c4 ""))) +:+ ?r)
    with (String c1 (String c2 (String c3 (String c4 r)))).
  rewrite (matches_RE_Y c1 c2 c3 c4 _ H1 H2 H3 H4). reflexivity.
Qed.

Lemma digit_not_slash (c : ascii) : Py.is_digit c = true → Ascii.eqb c "/" = false.
Proof.
  destruct (Ascii.eqb_spec c "/") as [->|]; [discriminate | reflexivity].
Qed.

(** A text that starts with three digits does not start with a month and a
    slash. *)
Lemma matches_mdY_digits (a b c : ascii) (rest : string) :
  Py.is_digit b = true → Py.is_digit c = true →
  matches (format_regex mdY_slash) (String a (String b (String c rest))) = [].
Proof.
  intros Hb%digit_not_slash Hc%digit_not_slash.
  unfold format_regex, RE_m. cbn [matches].
  repeat match goal with
         | |- context [if ?x then _ else _] =>
             lazymatch x with
             | Ascii.eqb b "/" => rewrite Hb
             | Ascii.eqb c "/" => rewrite Hc
             | _ => destruct x
             end; cbn
         end; reflexivity.
Qed.

Lemma strptime_mdY_on_Ymd_slash (year month day : Z) :
  1 <= year <= 9999 →
  strptime (render Ymd_slash year month day) mdY_slash = None.
Proof.
  intros Hy. unfold strptime, render.
  assert (Hy0 : 0 <= year <= 9999) by lia.
  destruct (four_digits_chars year Hy0) as (c1 & c2 & c3 & c4 & -> & H1 & H2 & H3 & H4).
  change (String c1 (String c2 (String c3 (String c4 ""))) +:+ ?r)
    with (String c1 (String c2 (String c3 (String c4 r)))).
  rewrite matches_mdY_digits by assumption. reflexivity.
Qed.

Lemma no_space_render (fmt : date_format) (year month day : Z) :
  1 <= year <= 9999 → 1 <= month <= 12 → 1 <= day <= 31 →
  no_space (render fmt year month day) = true.
Proof.
  intros Hy Hm Hd. destruct fmt; unfold render;
    rewrite !no_space_app, no_space_four_digits, !no_space_two_digits by lia; reflexivity.
Qed.

Lemma render_not_empty (fmt : date_format) (year month day : Z) :
  ∃ c s, render fmt year month day = String c s.
Proof. destruct fmt; eexists _, _; reflexivity. Qed.

Lemma parse_formation_date_text (c : ascii) (s : string) :
  parse_formation_date (Some (String c s)) =
  match try_formats (Py.strip (String c s)) DATE_FORMATS with
  | Some (year, month, _) => (month, year)
  | None => (6, 2024)
  end.
Proof. reflexivity. Qed.



(** ** Reasoning about effects *)

Section Effects.

Variable E : environment.

Lemma wp_ret {A} (a : A) (Q : res A → list event → Prop) :
  Q (Val a) [] → wp (mret a) Q.
Proof.
  intros HQ w. exists (Val a), w, []. rewrite app_nil_r. by repeat split.
Qed.

Lemma wp_raise {A} (e : exn) (Q : res A → list event → Prop) :
  Q (Exc e) [] → wp (raise e) Q.
Proof.
  intros HQ w. exists (Exc e), w, []. rewrite app_nil_r. by repeat split.
Qed.

Lemma wp_bind {A B} (m : M A) (f : A → M B) (Q : res B → list event → Prop) :
  wp m (λ r evs,
    match r with
    | Val a => wp (f a) (λ r' evs', Q r' (evs ++ evs')%list)
    | Exc e => Q (Exc e) evs
    end) →
  wp (m ≫= f) Q.
Proof.
  intros Hm w. destruct (Hm w) as (r & w1 & evs & Hrun & Htr & Hs & Ht & Hn & Hd & HQ).
  unfold mbind, M_bind. rewrite Hrun. destruct r as [a|e].
  - destruct (HQ w1) as (r' & w2 & evs' & Hrun' & Htr' & Hs' & Ht' & Hn' & Hd' & HQ').
    exists r', w2, (evs ++ evs')%list. rewrite Hrun', Htr', Htr, app_assoc.
    repeat split; first [exact HQ' | congruence | set_solver].
  - exists (Exc e), w1, evs. by repeat split.
Qed.

Lemma wp_try_except {A} (body : M A) (handler : exn → M A)
    (Q : res A → list event → Prop) :
  wp body (λ r evs,
    match r with
    | Val a => Q (Val a) evs
    | Exc e => wp (handler e) (λ r' evs', Q r' (evs ++ evs')%list)
    end) →
  wp (try_except body handler) Q.
Proof.
  intros Hm w. destruct (Hm w) as (r & w1 & evs & Hrun & Htr & Hs & Ht & Hn & Hd & HQ).
  unfold try_except. rewrite Hrun. destruct r as [a|e].
  - exists (Val a), w1, evs. by repeat split.
  - destruct (HQ w1) as (r' & w2 & evs' & Hrun' & Htr' & Hs' & Ht' & Hn' & Hd' & HQ').
    exists r', w2, (evs ++ evs')%list. rewrite Hrun', Htr', Htr, app_assoc.
    repeat split; first [exact HQ' | congruence | set_solver].
Qed.

Lemma wp_env_call (self : option nat) (c : call) (Q : res Z → list event → Prop) :
  (∀ v, Q (Val v) [Event self c (Returns v)]) →
  (∀ message, Q (Exc (PyError message)) [Event self c (Raises message)]) →
  wp (env_call E self c) Q.
Proof.
  intros Hret Hraise w. unfold env_call.
  destruct (oracle E (trace w) self c) as [v|message].
  - exists (Val v), (log_event (Event self c (Returns v)) w), [Event self c (Returns v)].
    by repeat split.
  - exists (Exc (PyError message)), (log_event (Event self c (Raises message)) w),
      [Event self c (Raises message)].
    by repeat split.
Qed.

Lemma wp_set_driver (self : nat) (Q : res unit → list event → Prop) :
  Q (Val ()) [] → wp (set_driver self) Q.
Proof.
  intros HQ w. eexists (Val ()), _, []. unfold set_driver. simpl.
  rewrite app_nil_r. repeat split; [set_solver | exact HQ].
Qed.

Lemma wp_mono {A} (m : M A) (Q Q' : res A → list event → Prop) :
  wp m Q → (∀ r evs, Q r evs → Q' r evs) → wp m Q'.
Proof.
  intros Hm HQ w. destruct (Hm w) as (r & w' & evs & H1 & H2 & H3 & H4 & H5 & H6 & H7).
  exists r, w', evs. repeat split; auto.
Qed.

End Effects.

(** ** The steps of the wizard *)

Section Wizard.

Variable E : environment.

Ltac wp_step :=
  lazymatch goal with
  | |- wp (mbind _ _) _ => apply wp_bind
  | |- wp (try_except _ _) _ => apply wp_try_except
  | |- wp (env_call _ _ _) _ => apply wp_env_call; [intros ? | intros ?]
  | |- wp (mret _) _ => apply wp_ret
  | |- wp (set_driver _) _ => apply wp_set_driver
  end; cbv beta iota.

Ltac wp_run := repeat wp_step; cbn [app].

Ltac all_quiet := repeat first [apply Forall_nil_2 | apply Forall_cons_2; [reflexivity|]].

Lemma wp_time_now (self : nat) (Q : res Z → list event → Prop) :
  (∀ now, Q (Val now) [Event (Some self) Time (Returns now)]) →
  wp (time_now E self) Q.
Proof.
  intros HQ w. eexists (Val _), _, [_]. unfold time_now.
  repeat split; [done | apply HQ].
Qed.

Lemma click_attempts_spec (self : nat) (loc : locator) (n : nat) :
  wp (click_attempts E self loc n) (λ r evs,
    (∃ b, r = Val b) ∧
    (∃ o evs', evs = Event (Some self) (UntilClickable loc) o :: evs') ∧
    Forall (λ e, quiet e = true) evs).
Proof.
  induction n as [|n IH]; cbn [click_attempts]; wp_run;
    try (split; [eauto | split; [eauto | all_quiet]]).
  all: eapply wp_mono; [apply IH|]; cbv beta;
    intros r evs ((b & ->) & (o & evs' & ->) & Hq); cbn [app];
    (split; [eauto | split; [eauto | all_quiet; inversion Hq; assumption]]).
Qed.

Lemma click_button_spec (self : nat) (loc : locator) :
  wp (click_button E self loc) (λ r evs,
    (∃ b, r = Val b) ∧
    (∃ o evs', evs = Event (Some self) (UntilClickable loc) o :: evs') ∧
    Forall (λ e, quiet e = true) evs).
Proof. apply click_attempts_spec. Qed.

Lemma select_radio_spec (self : nat) (radio_id : string) :
  wp (select_radio E self radio_id) (λ r evs,
    (∃ b, r = Val b) ∧
    ∃ o, evs = [Event (Some self) (ExecuteScript (radio_script radio_id)) o]).
Proof.
  unfold select_radio. wp_run.
  - destruct (truthy v); wp_run; eauto.
  - eauto.
Qed.

Lemma fill_field_spec (self : nat) (loc : locator) (value : string) :
  wp (fill_field E self loc value) (λ r evs,
    (∃ b, r = Val b) ∧ Forall (λ e, quiet e = true) evs).
Proof.
  unfold fill_field. destruct (_ || _); wp_run; (split; [eauto | all_quiet]).
Qed.

Lemma select_dropdown_spec (self : nat) (loc : locator) (value : string) :
  wp (select_dropdown E self loc value) (λ r evs,
    (∃ b, r = Val b) ∧ Forall (λ e, quiet e = true) evs).
Proof. unfold select_dropdown. wp_run; (split; [eauto | all_quiet]). Qed.

Lemma init_browser_spec (self : nat) :
  wp (init_browser E self) (λ r evs,
    Forall (λ e, quiet e = true) evs ∧
    match r with
    | Val _ => True
    | Exc e => ∃ before c message,
        e = PyError message ∧ evs = (before ++ [Event (Some self) c (Raises message)])%list
    end).
Proof.
  unfold init_browser, _disable_popups, HEADLESS. wp_run; (split; [all_quiet|]); try exact I.
  all: lazymatch goal with
       | |- ∃ before c message, PyError ?m = PyError message ∧ ?l = _ =>
           exists (removelast l); eexists; exists m; split; reflexivity
       end.
Qed.

Lemma capture_page_as_png_spec (self : nat) (filename : string) :
  wp (capture_page_as_png E self filename) (λ r evs,
    Forall (λ e, is_capture_call (what e) = true) evs ∧
    ((r = Val (None, None) ∧ Exists raised evs) ∨
     (r = Val (Some (STATIC_DIR E +:+ "/" +:+ filename),
               Some (HOST_URL E +:+ "/static/" +:+ filename)) ∧
      Forall returned evs))).
Proof.
  unfold capture_page_as_png. wp_run;
    (split; [repeat first [apply Forall_nil_2 | apply Forall_cons_2; [reflexivity|]]|]).
  1: right; split; [reflexivity|];
       repeat first [apply Forall_nil_2 | apply Forall_cons_2; [eexists; reflexivity|]].
  all: left; split; [reflexivity|];
    repeat first [apply Exists_cons_hd; eexists; reflexivity | apply Exists_cons_tl].
Qed.

Lemma entity_radio_quiet (data : CaseData) (self : nat) (o : outcome) :
  quiet (Event (Some self) (ExecuteScript (radio_script (entity_radio data))) o) = true.
Proof.
  unfold entity_radio.
  generalize (default "LLC" (or_str (entity_type data) (Some "LLC"))). intros key.
  unfold ENTITY_TYPE_MAPPING. cbn [Py.assoc].
  repeat (destruct (String.eqb key _); [reflexivity|]). reflexivity.
Qed.

Lemma multi_member_step_spec (self : nat) :
  wp (multi_member_step E self) (λ r evs,
    r = Val () ∧
    ∃ o1 o2 more,
      evs = Event (Some self) (ExecuteScript (radio_script "radio_n")) o1
            :: Event (Some self) (UntilClickable CONTINUE_BUTTON) o2 :: more ∧
      Forall (λ e, quiet e = true) more).
Proof.
  unfold multi_member_step.
  apply wp_bind. eapply wp_mono; [apply select_radio_spec|]. cbv beta.
  intros r evs ((b & ->) & o1 & ->).
  apply wp_bind. eapply wp_mono; [apply click_button_spec|]. cbv beta.
  intros r evs ((b' & ->) & (o2 & more & ->) & Hq).
  apply wp_ret. split; [reflexivity|].
  exists o1, o2, more. split; [cbn [app]; by rewrite app_nil_r|].
  inversion Hq; assumption.
Qed.

(** Every run of [run_automation] ends with a result tuple, and the events
    it adds have the shape [run_post] describes. *)
Lemma run_automation_spec (self : nat) (data : CaseData) :
  wp (run_automation E self data) (run_post E self data).
Proof.
  unfold run_automation. apply wp_try_except.
  apply wp_bind. eapply wp_mono; [apply init_browser_spec|]. cbv beta.
  intros r evs0 [Hq0 Hr]. destruct r as [[]|e].
  2: { destruct Hr as (before & c & message & -> & ->).
       apply wp_ret. rewrite app_nil_r. cbn [run_post exn_str].
       repeat split; eauto. }
  apply wp_bind. apply wp_env_call; [intros v | intros message]; cbv beta iota.
  2: { apply wp_ret. cbn [run_post exn_str]. repeat split.
       - rewrite app_nil_r. apply Forall_app_2; [exact Hq0 | all_quiet].
       - exists evs0, (Get IRS_URL). by rewrite app_nil_r. }
  apply wp_bind. eapply wp_mono; [apply click_button_spec|]. cbv beta.
  intros r evs1 ((b1 & ->) & _ & Hq1).
  apply wp_bind. eapply wp_mono; [apply select_radio_spec|]. cbv beta.
  intros r evs2 ((b2 & ->) & o2 & ->).
  apply wp_bind. eapply wp_mono; [apply click_button_spec|]. cbv beta.
  intros r evs3 ((b3 & ->) & _ & Hq3).
  apply wp_bind. eapply wp_mono; [apply click_button_spec|]. cbv beta.
  intros r evs4 ((b4 & ->) & _ & Hq4).
  cbv zeta.
  apply wp_bind. eapply wp_mono; [apply fill_field_spec|]. cbv beta.
  intros r evs5 ((b5 & ->) & Hq5).
  apply wp_bind. eapply wp_mono; [apply select_dropdown_spec|]. cbv beta.
  intros r evs6 ((b6 & ->) & Hq6).
  apply wp_bind. eapply wp_mono; [apply click_button_spec|]. cbv beta.
  intros r evs7 ((b7 & ->) & _ & Hq7).
  apply wp_bind.
  apply (wp_mono _ (λ r branch, r = Val () ∧
    if determine_llc_members (json_summary data) =? 2
    then ∃ o1 o2 more,
        branch = Event (Some self) (ExecuteScript (radio_script "radio_n")) o1
                 :: Event (Some self) (UntilClickable CONTINUE_BUTTON) o2 :: more ∧
        Forall (λ e, quiet e = true) more
    else branch = [])).
  { destruct (determine_llc_members (json_summary data) =? 2).
    - apply multi_member_step_spec.
    - by apply wp_ret. }
  intros r branch [-> Hbranch].
  unfold _fill_remaining_steps. apply wp_bind. apply wp_ret.
  apply wp_bind. apply wp_time_now. intros now.
  apply wp_bind. eapply wp_mono; [apply capture_page_as_png_spec|]. cbv beta.
  intros r capture [Hcap Hresult].
  assert (Hbefore : Forall (λ e, quiet e = true)
            (evs0 ++ [Event (Some self) (Get IRS_URL) (Returns v)] ++ evs1 ++
             [Event (Some self) (ExecuteScript (radio_script (entity_radio data))) o2] ++
             evs3 ++ evs4 ++ evs5 ++ evs6 ++ evs7)%list).
  { repeat (apply Forall_app_2; [try assumption|]); try assumption.
    - all_quiet.
    - apply Forall_cons_2; [apply entity_radio_quiet | apply Forall_nil_2]. }
  destruct Hresult as [[-> Hraised] | [-> Hreturned]]; apply wp_ret; cbn [run_post];
    (split; [reflexivity|]);
    eexists _, branch, now, capture;
    (split; [|split; [exact Hbefore | split; [exact Hbranch | split; [exact Hcap|]]]]);
    try (rewrite ?app_nil_r, <- ?app_assoc; cbn [app]; reflexivity).
  - left. auto.
  - right. auto.
Qed.

End Wizard.

(** ** Runs of the wizard *)

Lemma wp_inv {A} (m : M A) (Q : res A → list event → Prop) (w : world) (r : res A) (w' : world) :
  wp m Q → m w = (r, w') →
  Q r (new_events w w') ∧ trace w' = (trace w ++ new_events w w')%list ∧
  sessions w' = sessions w ∧ timers w' = timers w ∧
  next_object w' = next_object w ∧ drivers w ⊆ drivers w'.
Proof.
  intros Hwp Hrun. destruct (Hwp w) as (r0 & w0 & evs & Hrun0 & Htr & Hs & Ht & Hn & Hd & HQ).
  rewrite Hrun in Hrun0. injection Hrun0 as <- <-.
  unfold new_events. rewrite Htr, drop_app_length. repeat split; assumption.
Qed.






(** C8. [capture_page_as_png] never raises: when one of its calls raises it
    answers [(None, None)].  A run of [run_automation] in which the capture
    was attempted and one of its calls raised still reports success, with no
    capture path and no URL. *)
Theorem capture_failure_not_fatal (E : environment) (self : nat) :
  (∀ filename w r w',
     capture_page_as_png E self filename w = (r, w') →
     Exists raised (new_events w w') → r = Val (None, None)) ∧
  (∀ data w r w',
     run_automation E self data w = (r, w') →
     Exists (λ e, is_capture_call (what e) = true ∧ raised e) (new_events w w') →
     r = Val (true, "Form completed successfully", None, None)).
Proof.
  assert (Hclash : ∀ evs, Forall returned evs → ¬ Exists raised evs).
  { intros evs Hall (e & He & [message Hm])%Exists_exists.
    destruct (proj1 (Forall_forall _ _) Hall e He) as [value Hv]. congruence. }
  split.
  - intros filename w r w' Hrun Hraised.
    destruct (wp_inv _ _ _ _ _ (capture_page_as_png_spec E self filename) Hrun)
      as [[_ [[-> _]|[_ Hreturned]]] _]; [reflexivity|].
    destruct (Hclash _ Hreturned Hraised).
  - intros data w r w' Hrun Hraised.
    destruct (wp_inv _ _ _ _ _ (run_automation_spec E self data) Hrun) as [Hpost _].
    apply Exists_exists in Hraised as (e & He & Hcall & Hraise).
    destruct r as [[[[[] message] png_path] png_url]|exc]; cbn [run_post] in Hpost.
    + destruct Hpost as (-> & before & branch & now & capture & Hevs & Hbefore & Hbranch & Hcap
                         & [(-> & -> & _)|(_ & _ & Hreturned)]); [reflexivity|].
      exfalso. rewrite Hevs, !elem_of_app in He. destruct He as [He|[He|[He|He]]].
      * pose proof (proj1 (Forall_forall _ _) Hbefore e He) as Hq.
        unfold quiet in Hq. rewrite Hcall in Hq. discriminate Hq.
      * destruct (determine_llc_members (json_summary data) =? 2).
        -- destruct Hbranch as (o1 & o2 & more & -> & Hmore).
           apply elem_of_cons in He as [->|He]; [discriminate Hcall|].
           apply elem_of_cons in He as [->|He]; [discriminate Hcall|].
           pose proof (proj1 (Forall_forall _ _) Hmore e He) as Hq.
           unfold quiet in Hq. rewrite Hcall in Hq. discriminate Hq.
        -- subst branch. by apply elem_of_nil in He.
      * apply list_elem_of_singleton in He. subst e. discriminate Hcall.
      * apply (Hclash _ Hreturned). apply Exists_exists. eauto.
    + destruct Hpost as (_ & _ & Hquiet & _). exfalso.
      pose proof (proj1 (Forall_forall _ _) Hquiet e He) as Hq.
      unfold quiet in Hq. rewrite Hcall in Hq. discriminate Hq.
    + destruct Hpost.
Qed.

Lemma capture_failure_not_fatal_witness :
  (capture_page_as_png (no_capture "printer") 0 "print_x_1.png" initial_world).1
    = Val (None, None) ∧
  (run_automation (no_capture "printer") 0 llc_case initial_world).1
    = Val (true, "Form completed successfully", None, None).
Proof.
  split.
  - apply (proj1 (capture_failure_not_fatal (no_capture "printer") 0) "print_x_1.png"
             initial_world
             (capture_page_as_png (no_capture "printer") 0 "print_x_1.png" initial_world).1
             (capture_page_as_png (no_capture "printer") 0 "print_x_1.png" initial_world).2
             eq_refl).
    vm_compute. apply Exists_cons_hd. eexists. reflexivity.
  - apply (proj2 (capture_failure_not_fatal (no_capture "printer") 0) llc_case
             initial_world
             (run_automation (no_capture "printer") 0 llc_case initial_world).1
             (run_automation (no_capture "printer") 0 llc_case initial_world).2
             eq_refl).
    vm_compute.
    repeat first [apply Exists_cons_hd; split; [reflexivity | eexists; reflexivity]
                 | apply Exists_cons_tl].
Defined.

(** ** The session store and the endpoints *)

Section Server.

Variable E : environment.

Lemma bind_run {A B} (m : M A) (f : A → M B) (w : world) :
  (m ≫= f) w =
  match m w with
  | (Val a, w1) => f a w1
  | (Exc e, w1) => (Exc e, w1)
  end.
Proof. reflexivity. Qed.

Lemma ret_run {A} (a : A) (w : world) : @mret M M_ret A a w = (Val a, w).
Proof. reflexivity. Qed.

(** [cleanup] never raises; it calls [quit] exactly when the object has a
    driver and changes nothing else. *)
Lemma cleanup_run (self : nat) (w : world) :
  ∃ w', cleanup E self w = (Val (), w') ∧
    sessions w' = sessions w ∧ timers w' = timers w ∧
    next_object w' = next_object w ∧ drivers w' = drivers w ∧
    trace w' = (trace w ++
                if decide (self ∈ drivers w)
                then [Event (Some self) Quit (oracle E (trace w) (Some self) Quit)]
                else [])%list.
Proof.
  unfold cleanup. rewrite bind_run. cbn [get_world].
  destruct (decide (self ∈ drivers w)).
  - unfold try_except. rewrite bind_run. unfold env_call.
    destruct (oracle E (trace w) (Some self) Quit); eexists; repeat split.
  - eexists. repeat split. cbn. by rewrite app_nil_r.
Qed.

Lemma remove_session_absent (record_id : string) (w : world) :
  sessions w !! record_id = None → remove_session E record_id w = (Val (), w).
Proof.
  intros Hnone. unfold remove_session. rewrite bind_run. cbn [get_world].
  rewrite Hnone. reflexivity.
Qed.

Lemma remove_session_present (record_id : string) (automation : nat) (w : world) :
  sessions w !! record_id = Some automation →
  ∃ w', remove_session E record_id w = (Val (), w') ∧
    sessions w' = delete record_id (sessions w) ∧ timers w' = timers w ∧
    next_object w' = next_object w ∧ drivers w' = drivers w ∧
    trace w' = (trace w ++
                if decide (automation ∈ drivers w)
                then [Event (Some automation) Quit (oracle E (trace w) (Some automation) Quit)]
                else [])%list.
Proof.
  intros Hsome. unfold remove_session. rewrite bind_run. cbn [get_world].
  rewrite Hsome. rewrite bind_run. cbn [set_sessions].
  destruct (cleanup_run automation
              (World (trace w) (drivers w) (delete record_id (sessions w))
                 (next_object w) (timers w)))
    as (w' & Hrun & Hs & Ht & Hn & Hd & Htr).
  exists w'. rewrite Hrun. repeat split; assumption.
Qed.

Lemma submit_decision_absent (decision : SubmitDecision) (w : world) :
  sessions w !! decision_record_id decision = None →
  submit_decision_endpoint E decision w = (Exc (HTTPException 404 "Session not found"), w).
Proof.
  intros Hnone. unfold submit_decision_endpoint. rewrite bind_run.
  unfold get_session. rewrite bind_run. cbn [get_world].
  rewrite ret_run, Hnone. reflexivity.
Qed.

Lemma submit_decision_present (decision : SubmitDecision) (automation : nat) (w : world) :
  sessions w !! decision_record_id decision = Some automation →
  submit_decision_endpoint E decision w =
  (Val [ ("record_id", JStr (decision_record_id decision));
         ("message", JStr (if proceed decision then "Form submitted successfully"
                           else "Process cancelled"));
         ("status", JStr "Completed") ],
   (remove_session E (decision_record_id decision) w).2).
Proof.
  intros Hsome. unfold submit_decision_endpoint. rewrite bind_run.
  unfold get_session. rewrite bind_run. cbn [get_world].
  rewrite ret_run, Hsome. unfold try_finally. rewrite ret_run.
  destruct (remove_session_present (decision_record_id decision) automation w Hsome)
    as (w' & Hrun & _).
  rewrite Hrun. reflexivity.
Qed.

(** C7. [POST /submit-decision]: without a session under the record id the
    handler raises HTTP 404 and leaves the whole state, the store included,
    as it was; with a session it answers the record id, the message for the
    decision and status "Completed", and the session is gone from the store
    afterwards, whether [proceed] is true or false. *)
Theorem submit_decision_spec (decision : SubmitDecision) (w : world) :
  let record_id := decision_record_id decision in
  (sessions w !! record_id = None →
   submit_decision_endpoint E decision w = (Exc (HTTPException 404 "Session not found"), w)) ∧
  (∀ automation, sessions w !! record_id = Some automation →
   ∃ w', submit_decision_endpoint E decision w =
           (Val [ ("record_id", JStr record_id);
                  ("message", JStr (if proceed decision then "Form submitted successfully"
                                    else "Process cancelled"));
                  ("status", JStr "Completed") ], w') ∧
         sessions w' = delete record_id (sessions w) ∧
         sessions w' !! record_id = None).
Proof.
  intros record_id. split; [apply submit_decision_absent|].
  intros automation Hsome. eexists.
  split; [exact (submit_decision_present decision automation w Hsome)|].
  destruct (remove_session_present record_id automation w Hsome) as (w' & Hrun & Hs & _).
  subst record_id. rewrite Hrun. cbn [snd]. split; [exact Hs|].
  rewrite Hs. apply lookup_delete_eq.
Qed.


Lemma save_json_data_spec (data : CaseData) :
  wp (save_json_data E data) (λ r evs, ∃ b, r = Val b).
Proof.
  unfold save_json_data. apply wp_try_except. apply wp_bind.
  apply wp_env_call; [intros v | intros message]; cbv beta iota; apply wp_ret; eauto.
Qed.

Lemma _send_completion_notification_spec
    (record_id status message : string) (png_url : option string) :
  wp (_send_completion_notification E record_id status message png_url)
     (λ r evs, r = Val ()).
Proof.
  unfold _send_completion_notification. cbv zeta. apply wp_try_except. apply wp_bind.
  apply wp_env_call; [intros v | intros msg]; cbv beta iota; by apply wp_ret.
Qed.

(** The three ways a request with the right key to [/run-irs-ein] ends: the
    payload cannot be mapped; the automation fails; the automation succeeds. *)
Lemma run_irs_ein_endpoint_run (data : dict) (w : world) (r : res dict) (w' : world) :
  run_irs_ein_endpoint E data (Some ("Bearer " +:+ API_KEY E)) w = (r, w') →
  (∃ e, map_form_automation_data E data = Exc e ∧
        r = Exc (HTTPException 500 (exn_str E e)) ∧ w' = w) ∨
  (∃ case_data w2 w3 message,
      map_form_automation_data E data = Val case_data ∧
      sessions w2 = sessions w ∧
      run_automation E (next_object w) case_data w2 = (Val (false, message, None, None), w3) ∧
      cleanup E (next_object w) w3 = (Val (), w') ∧
      r = Exc (HTTPException 500 (http_exception_str E 500 message)) ∧
      sessions w' = sessions w ∧ timers w' = timers w) ∨
  (∃ case_data w2 w3 png_path png_url,
      map_form_automation_data E data = Val case_data ∧
      run_automation E (next_object w) case_data w2 =
        (Val (true, "Form completed successfully", png_path, png_url), w3) ∧
      r = Val [ ("message",
                 JStr ("Process completed. Use /submit-decision with record_id: "
                       +:+ record_id case_data));
                ("status", JStr "Completed");
                ("record_id", JStr (record_id case_data));
                ("png_url", opt_str png_url) ] ∧
      sessions w' = <[ record_id case_data := next_object w ]> (sessions w) ∧
      timers w' = (timers w ++ [record_id case_data])%list ∧
      (png_url = None ∨
       ∃ now, png_url = Some (HOST_URL E +:+ "/static/" +:+ png_filename case_data now))).
Proof.
  unfold run_irs_ein_endpoint. rewrite bool_decide_eq_true_2 by reflexivity.
  cbn [negb]. unfold try_except. rewrite bind_run. unfold lift.
  destruct (map_form_automation_data E data) as [case_data|e] eqn:Hmap.
  2: { intros [= <- <-]. left. eauto. }
  rewrite bind_run.
  destruct (save_json_data E case_data w) as [r1 w1] eqn:Hsave.
  destruct (wp_inv _ _ _ _ _ (save_json_data_spec case_data) Hsave)
    as ([b ->] & _ & Hs1 & Ht1 & Hn1 & _).
  rewrite bind_run. cbn [new_object]. rewrite bind_run.
  set (w2 := World (trace w1) (drivers w1) (sessions w1) (S (next_object w1)) (timers w1)).
  destruct (run_automation E (next_object w1) case_data w2) as [rr w3] eqn:Hrun.
  destruct (wp_inv _ _ _ _ _ (run_automation_spec E (next_object w1) case_data) Hrun)
    as (Hpost & _ & Hs3 & Ht3 & Hn3 & _).
  destruct rr as [[[[success message] png_path] png_url]|exc]; [|destruct Hpost].
  rewrite Hn1 in *. destruct success; cbn [run_post] in Hpost.
  - destruct Hpost as (-> & before & branch & now & capture & _ & _ & _ & _ & Hresult).
    rewrite bind_run. unfold store_session. rewrite bind_run. cbn [get_world set_sessions].
    rewrite bind_run.
    match goal with
    | |- context [_send_completion_notification E ?a ?b ?c ?d ?w] =>
        destruct (_send_completion_notification E a b c d w) as [r4 w4] eqn:Hnote
    end.
    destruct (wp_inv _ _ _ _ _ (_send_completion_notification_spec _ _ _ _) Hnote)
      as (-> & _ & Hs4 & Ht4 & _).
    rewrite bind_run. cbn [create_task]. rewrite ret_run.
    intros [= <- <-]. right; right.
    exists case_data, w2, w3, png_path, png_url. cbn [sessions timers] in *.
    repeat split; try reflexivity; try assumption.
    + rewrite Hs4. cbn [sessions]. rewrite Hs3. cbn [w2 sessions]. by rewrite Hs1.
    + rewrite Ht4. cbn [timers]. rewrite Ht3. cbn [w2 timers]. by rewrite Ht1.
    + destruct Hresult as [(_ & -> & _)|(_ & -> & _)]; eauto.
  - destruct Hpost as (-> & -> & _).
    rewrite bind_run.
    destruct (cleanup_run (next_object w) w3) as (w4 & Hclean & Hs4 & Ht4 & _).
    rewrite Hclean. unfold raise. intros [= <- <-]. right; left.
    exists case_data, w2, w3, message. cbn [exn_str].
    assert (sessions w4 = sessions w) by (rewrite Hs4, Hs3; exact Hs1).
    assert (timers w4 = timers w) by (rewrite Ht4, Ht3; exact Ht1).
    repeat split; try assumption; try reflexivity.
Qed.




(** [remove_session] run twice in a row: the second run does nothing. *)
Lemma remove_session_twice (record_id : string) (w w1 : world) :
  remove_session E record_id w = (Val (), w1) →
  remove_session E record_id w1 = (Val (), w1).
Proof.
  intros Hrun. apply remove_session_absent.
  destruct (sessions w !! record_id) as [automation|] eqn:Hlookup.
  - destruct (remove_session_present record_id automation w Hlookup) as (w' & Hrun' & Hs & _).
    rewrite Hrun in Hrun'. injection Hrun' as <-. rewrite Hs. apply lookup_delete_eq.
  - rewrite (remove_session_absent record_id w Hlookup) in Hrun.
    injection Hrun as <-. exact Hlookup.
Qed.

(** [store_session] over a record id that is taken: the automation object
    that was parked there keeps its browser and is no longer in the store. *)
Lemma store_session_overwrite (record_id : string) (old new : nat) (w : world) :
  sessions w !! record_id = Some old → old ≠ new →
  (∀ other, sessions w !! other = Some old → other = record_id) →
  live w old = true →
  live (store_session record_id new w).2 old = true ∧
  ¬ stored (store_session record_id new w).2 old.
Proof.
  intros Hold Hne Honly Hlive. unfold store_session. rewrite bind_run.
  cbn [get_world set_sessions snd]. split; [exact Hlive|].
  intros [other Hother]. cbn [sessions] in Hother.
  destruct (decide (record_id = other)) as [<-|Hdiff].
  - rewrite lookup_insert_eq in Hother. congruence.
  - rewrite lookup_insert_ne in Hother by exact Hdiff.
    apply Honly in Hother. congruence.
Qed.

End Server.
Lemma submit_decision_spec_witness :
  respond (submit_decision_endpoint (calm 0) (Build_SubmitDecision "nobody" true)
             parked_world).1
    = HTTPError 404 "Session not found" ∧
  ∃ w', submit_decision_endpoint (calm 0) (Build_SubmitDecision "temp_record_id" false)
          parked_world
        = (Val [ ("record_id", JStr "temp_record_id");
                 ("message", JStr "Process cancelled");
                 ("status", JStr "Completed") ], w') ∧
        sessions w' = delete "temp_record_id" (sessions parked_world) ∧
        sessions w' !! "temp_record_id" = None.
Proof.
  split.
  - rewrite (proj1 (submit_decision_spec (calm 0) (Build_SubmitDecision "nobody" true)
                      parked_world)); [reflexivity|].
    cbn [parked_world sessions decision_record_id].
    rewrite lookup_insert_ne by discriminate. apply lookup_empty.
  - apply (proj2 (submit_decision_spec (calm 0)
                    (Build_SubmitDecision "temp_record_id" false) parked_world) 0%nat).
    cbn [parked_world sessions decision_record_id]. apply lookup_insert_eq.
Defined.


(** C2 at a run that fails.  When the browser cannot be started with the
    message "boom", [run_automation] returns the failure tuple with that
    message, the endpoint calls no [quit] (there is no driver), stores no
    session, and answers HTTP 500; but the detail it sends is the text of the
    [HTTPException] it raised and caught itself, "500: boom", not "boom". *)
Theorem failed_run_detail_is_wrapped :
  (run_automation (no_browser "boom") 0 empty_case initial_world).1
    = Val (false, "boom", None, None) ∧
  respond (run_irs_ein_endpoint (no_browser "boom") [] (Some "Bearer key") initial_world).1
    = HTTPError 500 "500: boom" ∧
  sessions (run_irs_ein_endpoint (no_browser "boom") [] (Some "Bearer key") initial_world).2
    = ∅.
Proof. vm_compute. repeat split; reflexivity. Qed.

(** C9 at two runs in a row.  Both succeed and both park their automation
    under "temp_record_id": after the second, the store holds the second
    object only, the browser of the first is still live, and the invariant of
    the store is broken. *)
Theorem second_run_orphans_first_browser :
  let first := (run_irs_ein_endpoint (calm 1700000000) [] (Some "Bearer key") initial_world).2 in
  let second := (run_irs_ein_endpoint (calm 1700000300) [] (Some "Bearer key") first).2 in
  sessions first !! "temp_record_id" = Some 0%nat ∧ live first 0 = true ∧
  sessions second !! "temp_record_id" = Some 1%nat ∧
  live second 0 = true ∧ ¬ stored second 0 ∧ ¬ store_invariant second.
Proof.
  intros first second.
  assert (Hfirst : sessions first = <[ "temp_record_id" := 0%nat ]> ∅)
    by (vm_compute; reflexivity).
  assert (Hsecond : sessions second = <[ "temp_record_id" := 1%nat ]> ∅)
    by (vm_compute; reflexivity).
  assert (Hlive1 : live first 0 = true) by (vm_compute; reflexivity).
  assert (Hlive2 : live second 0 = true) by (vm_compute; reflexivity).
  assert (Hnot : ¬ stored second 0).
  { intros [record_id Hid]. rewrite Hsecond in Hid.
    destruct (decide ("temp_record_id" = record_id)) as [<-|Hne].
    - rewrite lookup_insert_eq in Hid. discriminate Hid.
    - rewrite lookup_insert_ne, lookup_empty in Hid by exact Hne. discriminate Hid. }
  split; [rewrite Hfirst; apply lookup_insert_eq|].
  split; [exact Hlive1|].
  split; [rewrite Hsecond; apply lookup_insert_eq|].
  split; [exact Hlive2|].
  split; [exact Hnot|].
  intros Hinv. apply Hnot, Hinv, Hlive2.
Qed.

(** * More properties of the helpers *)





(** [entity_radio] answers one of the four radio identifiers of the table,
    and "limited" when the record has no entity type or an empty one. *)
Theorem entity_radio_known (data : CaseData) :
  entity_radio data ∈ ENTITY_RADIOS ∧
  (falsy_str (entity_type data) = true → entity_radio data = "limited").
Proof.
  split.
  - unfold entity_radio.
    generalize (default "LLC" (or_str (entity_type data) (Some "LLC"))). intros key.
    unfold ENTITY_TYPE_MAPPING, ENTITY_RADIOS. cbn [Py.assoc].
    repeat (destruct (String.eqb key _);
            [cbn [default];
             repeat first [apply list_elem_of_here | apply list_elem_of_further]|]).
    apply list_elem_of_here.
  - intros Hfalsy. unfold entity_radio, or_str. rewrite Hfalsy. reflexivity.
Qed.

(** Every fallback value of [_get_defaults] is a non-empty text: the
    record's own field when that is non-empty, the built-in default
    otherwise. *)
Theorem get_defaults_non_empty (data : CaseData) :
  Forall (λ entry, entry.2 ≠ "") (_get_defaults data).
Proof.
  assert (Hnonempty : ∀ field fallback, fallback ≠ "" →
            default fallback (or_str field (Some fallback)) ≠ "").
  { intros [[|c s]|] fallback Hfallback; cbn; congruence. }
  unfold _get_defaults. cbv zeta.
  repeat (apply Forall_cons_2; [apply Hnonempty; discriminate|]). apply Forall_nil_2.
Qed.

(** ** More on formation dates *)




Lemma strptime_render_invalid (fmt : date_format) (year month day : Z) :
  1 <= year <= 9999 → 1 <= month <= 12 → 1 <= day <= 31 →
  valid_date year month day = false →
  strptime (render fmt year month day) fmt = None.
Proof.
  intros Hy Hm Hd Hinvalid.
  destruct (first_match_render fmt year month day Hy Hm Hd)
    as (text & groups & [alts Hmatch] & HY & Hmo & Hda).
  unfold strptime. rewrite Hmatch. simpl. rewrite HY, Hmo, Hda.
  cbn [mbind option_bind].
  rewrite int_four_digits by lia. cbn [mbind option_bind].
  rewrite (int_two_digits month) by lia. cbn [mbind option_bind].
  rewrite (int_two_digits day) by lia. cbn [mbind option_bind].
  rewrite Hinvalid. reflexivity.
Qed.

Lemma strptime_mdY_on_Ymd_dash (year month day : Z) :
  1 <= year <= 9999 →
  strptime (render Ymd_dash year month day) mdY_slash = None.
Proof.
  intros Hy. unfold strptime, render.
  assert (Hy0 : 0 <= year <= 9999) by lia.
  destruct (four_digits_chars year Hy0) as (c1 & c2 & c3 & c4 & -> & H1 & H2 & H3 & H4).
  change (String c1 (String c2 (String c3 (String c4 ""))) +:+ ?r)
    with (String c1 (String c2 (String c3 (String c4 r)))).
  rewrite matches_mdY_digits by assumption. reflexivity.
Qed.

Lemma strptime_slash_on_Ymd_dash (year month day : Z) :
  1 <= year <= 9999 →
  strptime (render Ymd_dash year month day) Ymd_slash = None.
Proof.
  intros Hy. unfold strptime, format_regex, render. cbn [matches].
  assert (Hy0 : 0 <= year <= 9999) by lia.
  destruct (four_digits_chars year Hy0) as (c1 & c2 & c3 & c4 & -> & H1 & H2 & H3 & H4).
  change (String c1 (String c2 (String c3 (String c4 ""))) +:+ ?r)
    with (String c1 (String c2 (String c3 (String c4 r)))).
  rewrite (matches_RE_Y c1 c2 c3 c4 _ H1 H2 H3 H4). reflexivity.
Qed.

Lemma strptime_slash_on_mdY (year month day : Z) :
  strptime (render mdY_slash year month day) Ymd_slash = None.
Proof.
  unfold strptime, format_regex, render, two_digits. cbn [matches].
  change (String ?a (String ?b "") +:+ "/" +:+ ?r) with (String a (String b (String "/" r))).
  rewrite matches_RE_Y_slash. reflexivity.
Qed.

(** A day that its month does not have (30 February, 31 April, 29 February
    of a common year), written in any of the three formats, is not accepted:
    the answer is the default (6, 2024). *)
Theorem parse_formation_date_rejects_invalid (fmt : date_format) (year month day : Z) :
  1 <= year <= 9999 → 1 <= month <= 12 → 1 <= day <= 31 →
  valid_date year month day = false →
  parse_formation_date (Some (render fmt year month day)) = (6, 2024).
Proof.
  intros Hy Hm Hd Hinvalid.
  destruct (render_not_empty fmt year month day) as (c & s & Hrender).
  rewrite Hrender, parse_formation_date_text, <- Hrender.
  rewrite strip_no_space by (apply no_space_render; assumption).
  pose proof (strptime_render_invalid fmt year month day Hy Hm Hd Hinvalid) as Hown.
  unfold DATE_FORMATS. destruct fmt; cbn [try_formats].
  - rewrite Hown, strptime_mdY_on_Ymd_dash, strptime_slash_on_Ymd_dash by assumption.
    reflexivity.
  - rewrite strptime_dash_on_mdY, Hown, strptime_slash_on_mdY. reflexivity.
  - rewrite strptime_dash_on_Ymd_slash, strptime_mdY_on_Ymd_slash, Hown by assumption.
    reflexivity.
Qed.

Lemma parse_formation_date_rejects_invalid_witness :
  parse_formation_date (Some (render mdY_slash 2023 2 29)) = (6, 2024).
Proof.
  apply (parse_formation_date_rejects_invalid mdY_slash 2023 2 29); try lia. reflexivity.
Defined.

(** * More properties of the automation and of the server *)

Section MoreEffects.

Variable E : environment.

Ltac leaf_false :=
  apply wp_ret; exists false; split; [reflexivity|];
  split; [split; vm_compute; lia|];
  split; [split; [discriminate | intros [v Hv]; vm_compute in Hv; discriminate Hv]
         | intros _; vm_compute; reflexivity].

Ltac leaf_true :=
  apply wp_ret; exists true; split; [reflexivity|];
  split; [split; vm_compute; lia|];
  split; [split; [intros _; eexists; reflexivity | reflexivity] | discriminate].

(** [run_automation] never raises and never touches the session store or
    the timers; when it reports failure it gives no capture, and its message
    is the message of the last call it made, which raised. *)
Theorem run_automation_never_raises (self : nat) (data : CaseData) (w : world) :
  ∃ success message png_path png_url w',
    run_automation E self data w = (Val (success, message, png_path, png_url), w') ∧
    sessions w' = sessions w ∧ timers w' = timers w ∧
    (success = false →
     png_path = None ∧ png_url = None ∧
     ∃ c, last (new_events w w') = Some (Event (Some self) c (Raises message))).
Proof.
  destruct (run_automation E self data w) as [r w'] eqn:Hrun.
  destruct (wp_inv _ _ _ _ _ (run_automation_spec E self data) Hrun)
    as (Hpost & _ & Hs & Ht & _).
  destruct r as [[[[success message] png_path] png_url]|e]; [|destruct Hpost].
  exists success, message, png_path, png_url, w'.
  split; [reflexivity|]. split; [exact Hs|]. split; [exact Ht|].
  intros ->. cbn [run_post] in Hpost.
  destruct Hpost as (-> & -> & _ & before & c & ->).
  split; [reflexivity|]. split; [reflexivity|].
  exists c. apply last_snoc.
Qed.

(** [click_button] never raises.  It makes between one and three attempts;
    it answers [True] exactly when its last call is a click that returned,
    and when it answers [False] three calls raised, one per attempt. *)
Theorem click_button_attempts (self : nat) (loc : locator) (w : world) :
  ∃ b w',
    click_button E self loc w = (Val b, w') ∧
    (1 <= length (filter (λ e, is_wait e = true) (new_events w w')) <= 3)%nat ∧
    (b = true ↔ ∃ v, last (new_events w w') = Some (Event (Some self) Click (Returns v))) ∧
    (b = false → length (filter (λ e, has_raised e = true) (new_events w w')) = 3%nat).
Proof.
  assert (Hgen : ∀ n, wp (click_attempts E self loc n) (λ r evs,
            ∃ b, r = Val b ∧
              (1 <= length (filter (λ e, is_wait e = true) evs) <= S n)%nat ∧
              (b = true ↔ ∃ v, last evs = Some (Event (Some self) Click (Returns v))) ∧
              (b = false → length (filter (λ e, has_raised e = true) evs) = S n))).
  { induction n as [|n IH]; cbn [click_attempts].
    - apply wp_try_except, wp_bind, wp_env_call; [intros v1 | intros m1]; cbv beta iota.
      2: { leaf_false. }
      apply wp_bind, wp_env_call; [intros v2 | intros m2]; cbv beta iota.
      2: { leaf_false. }
      apply wp_bind, wp_env_call; [intros v3 | intros m3]; cbv beta iota.
      2: { leaf_false. }
      leaf_true.
    - assert (Hretry : ∀ prefix,
                (length (filter (λ e, is_wait e = true) prefix) = 1)%nat →
                (length (filter (λ e, has_raised e = true) prefix) = 1)%nat →
                wp (click_attempts E self loc n) (λ r evs,
                  ∃ b, r = Val b ∧
                    (1 <= length (filter (λ e, is_wait e = true) (prefix ++ evs)%list)
                     <= S (S n))%nat ∧
                    (b = true ↔ ∃ v, last (prefix ++ evs)%list
                                     = Some (Event (Some self) Click (Returns v))) ∧
                    (b = false →
                     length (filter (λ e, has_raised e = true) (prefix ++ evs)%list)
                     = S (S n)))).
      { intros prefix Hwaits Hraises. eapply wp_mono; [apply IH|]. cbv beta.
        intros r evs (b & -> & Hw & Hlast & Hfalse). exists b.
        rewrite !filter_app, !length_app, Hwaits, Hraises.
        assert (Hne : evs ≠ []) by (intros ->; cbn in Hw; lia).
        assert (Hl : last (prefix ++ evs)%list = last evs).
        { destruct evs as [|e evs]; [done|]. apply last_app_cons. }
        rewrite Hl. repeat split; try lia; try tauto.
        intros Hb. rewrite (Hfalse Hb). reflexivity. }
      apply wp_try_except, wp_bind, wp_env_call; [intros v1 | intros m1]; cbv beta iota.
      2: { apply (Hretry [_]); reflexivity. }
      apply wp_bind, wp_env_call; [intros v2 | intros m2]; cbv beta iota.
      2: { apply (Hretry [_; _]); reflexivity. }
      apply wp_bind, wp_env_call; [intros v3 | intros m3]; cbv beta iota.
      2: { apply (Hretry [_; _; _]); reflexivity. }
      leaf_true. }
  destruct (click_button E self loc w) as [r w'] eqn:Hrun.
  destruct (wp_inv _ _ _ _ _ (Hgen 2%nat) Hrun) as ((b & -> & Hw & Hlast & Hfalse) & _).
  exists b, w'. repeat split; try tauto; try lia; apply Hlast.
Qed.



(** [get_session] after [store_session]: the id just stored answers the
    automation stored, every other id answers what it did before, and
    storing makes no call and touches no driver. *)
Theorem store_then_get (record_id other : string) (automation : nat) (w : world) :
  let w' := (store_session record_id automation w).2 in
  get_session record_id w' = (Val (Some automation), w') ∧
  (other ≠ record_id → get_session other w' = (Val (sessions w !! other), w')) ∧
  trace w' = trace w ∧ drivers w' = drivers w.
Proof.
  cbv zeta. unfold store_session, get_session. rewrite !bind_run.
  cbn [get_world set_sessions snd]. rewrite !ret_run. cbn [sessions].
  split; [by rewrite lookup_insert_eq|]. split; [|split; reflexivity].
  intros Hne. by rewrite lookup_insert_ne.
Qed.

(** [remove_session] never raises.  It leaves the store without the id and
    the other ids as they were; it calls [quit] once, on the automation that
    was stored and has a driver, and makes no call otherwise; run again at
    once, it changes nothing. *)
Theorem remove_session_evicts (record_id : string) (w : world) :
  ∃ w',
    remove_session E record_id w = (Val (), w') ∧
    sessions w' = delete record_id (sessions w) ∧
    new_events w w' =
      match sessions w !! record_id with
      | Some automation =>
          if decide (automation ∈ drivers w)
          then [Event (Some automation) Quit (oracle E (trace w) (Some automation) Quit)]
          else []
      | None => []
      end ∧
    remove_session E record_id w' = (Val (), w').
Proof.
  destruct (sessions w !! record_id) as [automation|] eqn:Hlookup.
  - destruct (remove_session_present E record_id automation w Hlookup)
      as (w' & Hrun & Hs & _ & _ & _ & Htr).
    exists w'. split; [exact Hrun|]. split; [exact Hs|]. split.
    + unfold new_events. rewrite Htr. apply drop_app_length.
    + apply remove_session_absent. rewrite Hs. apply lookup_delete_eq.
  - exists w. rewrite (remove_session_absent E record_id w Hlookup).
    split; [reflexivity|]. split; [by rewrite delete_id|]. split; [|reflexivity].
    unfold new_events. apply drop_all.
Qed.

(** The decision and the timeout of one record id in either order: a
    timeout that fires after the decision endpoint has run does nothing, and
    a decision that arrives after the timeout has fired gets HTTP 404. *)
Theorem decision_and_timeout (decision : SubmitDecision) (w : world) :
  let record_id := decision_record_id decision in
  let decided := (submit_decision_endpoint E decision w).2 in
  let timed_out := (_timeout_session E record_id w).2 in
  _timeout_session E record_id decided = (Val (), decided) ∧
  submit_decision_endpoint E decision timed_out
  = (Exc (HTTPException 404 "Session not found"), timed_out).
Proof.
  cbv zeta. split.
  - unfold _timeout_session. apply remove_session_absent.
    destruct (sessions w !! decision_record_id decision) as [automation|] eqn:Hlookup.
    + rewrite (submit_decision_present E decision automation w Hlookup). cbn [snd].
      destruct (remove_session_present E _ automation w Hlookup) as (w' & Hrun & Hs & _).
      rewrite Hrun. cbn [snd]. rewrite Hs. apply lookup_delete_eq.
    + rewrite (submit_decision_absent E decision w Hlookup). exact Hlookup.
  - apply submit_decision_absent.
    unfold _timeout_session.
    destruct (sessions w !! decision_record_id decision) as [automation|] eqn:Hlookup.
    + destruct (remove_session_present E _ automation w Hlookup) as (w' & Hrun & Hs & _).
      rewrite Hrun. cbn [snd]. rewrite Hs. apply lookup_delete_eq.
    + rewrite (remove_session_absent E _ w Hlookup). exact Hlookup.
Qed.

(** What [/run-irs-ein] answers.  Without the right bearer key it raises
    HTTP 401 "Invalid API key" and leaves everything as it was: no call is
    made, no browser started, no session stored.  With the right key it
    answers a body or raises HTTP 500; no other exception leaves it. *)
Theorem run_irs_ein_endpoint_answers (data : dict) (authorization : option string)
    (w : world) :
  match run_irs_ein_endpoint E data authorization w with
  | (Val _, _) => authorization = bearer E
  | (Exc (HTTPException status detail), w') =>
      (authorization ≠ bearer E ∧ status = 401 ∧ detail = "Invalid API key" ∧ w' = w) ∨
      (authorization = bearer E ∧ status = 500)
  | (Exc (PyError _), _) => False
  end.
Proof.
  destruct (decide (authorization = bearer E)) as [->|Hkey].
  - destruct (run_irs_ein_endpoint E data (bearer E) w) as [r w'] eqn:Hrun.
    apply run_irs_ein_endpoint_run in Hrun
      as [(e & _ & -> & _) | [(cd & w2 & w3 & message & _ & _ & _ & _ & -> & _)
         | (cd & w2 & w3 & png_path & png_url & _ & _ & -> & _)]]; auto.
  - unfold run_irs_ein_endpoint, bearer in *.
    rewrite bool_decide_eq_false_2 by exact Hkey. cbn [negb raise]. left. auto.
Qed.

(** A payload without "Form_Automation__c" maps to the record with every
    field absent and the proceed flag "true". *)
Theorem map_form_automation_data_missing (data : dict) :
  Py.assoc "Form_Automation__c" data = None →
  map_form_automation_data E data = Val empty_case.
Proof.
  intros Hmissing. unfold map_form_automation_data. cbn [py_get].
  rewrite Hmissing. reflexivity.
Qed.

(** A payload whose "Form_Automation__c" is present and is not an object (a
    null, for one) makes the mapping raise, and the request ends with HTTP
    500 and the text of that error before anything is saved or any browser
    started. *)
Theorem non_object_payload_rejected (data : dict) (v : json) (w : world) :
  Py.assoc "Form_Automation__c" data = Some v →
  (∀ items, v ≠ JDict items) →
  run_irs_ein_endpoint E data (bearer E) w =
  (Exc (HTTPException 500 ("'" +:+ type_name v +:+ "' object has no attribute 'get'")), w).
Proof.
  intros Hpresent Hshape.
  assert (Hmap : map_form_automation_data E data =
                 Exc (PyError ("'" +:+ type_name v +:+ "' object has no attribute 'get'"))).
  { unfold map_form_automation_data. cbn [py_get]. rewrite Hpresent.
    destruct v; try reflexivity. destruct (Hshape items eq_refl). }
  destruct (run_irs_ein_endpoint E data (bearer E) w) as [r w'] eqn:Hrun.
  apply run_irs_ein_endpoint_run in Hrun
    as [(e & He & -> & ->) | [(cd & w2 & w3 & message & He & _)
       | (cd & w2 & w3 & png_path & png_url & He & _)]]; rewrite Hmap in He;
    try discriminate He.
  injection He as <-. reflexivity.
Qed.

End MoreEffects.

Lemma map_form_automation_data_missing_witness :
  map_form_automation_data (calm 0) [("Account", JStr "ACME")] = Val empty_case.
Proof.
  apply (map_form_automation_data_missing (calm 0) [("Account", JStr "ACME")]). reflexivity.
Defined.

Lemma non_object_payload_rejected_witness :
  run_irs_ein_endpoint (calm 0) [("Form_Automation__c", JNull)] (bearer (calm 0)) initial_world
  = (Exc (HTTPException 500 "'NoneType' object has no attribute 'get'"), initial_world).
Proof.
  apply (non_object_payload_rejected (calm 0) [("Form_Automation__c", JNull)] JNull
           initial_world); [reflexivity | discriminate].
Defined.

(** ** Screenshots *)

Lemma leb_le (a b : string) : String.leb a b = true ↔ String.le a b.
Proof. unfold String.le. symmetry. apply Is_true_true. Qed.

Lemma leb_trans (a b c : string) :
  String.leb a b = true → String.leb b c = true → String.leb a c = true.
Proof. rewrite !leb_le. intros Hab Hbc. by etrans. Qed.

Lemma leb_total (a b : string) : String.leb a b = false → String.leb b a = true.
Proof.
  intros Hab. destruct (String.leb_total a b) as [H|H]; [congruence | exact H].
Qed.

Lemma insert_sorted_elem (name x : string) (sorted : list string) :
  x ∈ insert_sorted name sorted ↔ x = name ∨ x ∈ sorted.
Proof.
  induction sorted as [|first rest IH]; cbn [insert_sorted].
  - rewrite list_elem_of_singleton. split; [auto | intros [?|H]; [done | by apply elem_of_nil in H]].
  - destruct (String.leb name first).
    + apply elem_of_cons.
    + rewrite !elem_of_cons, IH. tauto.
Qed.

Lemma py_sorted_elem (x : string) (names : list string) :
  x ∈ py_sorted names ↔ x ∈ names.
Proof.
  induction names as [|name names IH]; [reflexivity|].
  cbn [py_sorted foldr]. fold (py_sorted names).
  rewrite insert_sorted_elem, elem_of_cons, IH. reflexivity.
Qed.

Lemma insert_sorted_sorted (name : string) (sorted : list string) :
  StronglySorted (λ a b, String.leb a b = true) sorted →
  StronglySorted (λ a b, String.leb a b = true) (insert_sorted name sorted).
Proof.
  induction 1 as [|first rest Hrest IH Hfirst]; cbn [insert_sorted].
  - repeat constructor.
  - destruct (String.leb name first) eqn:Hle.
    + constructor; [by constructor|]. constructor; [exact Hle|].
      eapply Forall_impl; [exact Hfirst|]. intros x Hx. by eapply leb_trans.
    + constructor; [exact IH|]. apply Forall_forall. intros x Hx.
      apply insert_sorted_elem in Hx as [->|Hx]; [by apply leb_total|].
      by apply (proj1 (Forall_forall _ _) Hfirst).
Qed.

Lemma py_sorted_sorted (names : list string) :
  StronglySorted (λ a b, String.leb a b = true) (py_sorted names).
Proof.
  induction names as [|name names IH]; [constructor|].
  cbn [py_sorted foldr]. by apply insert_sorted_sorted.
Qed.

Lemma sorted_last_greatest (sorted : list string) (m : string) :
  StronglySorted (λ a b, String.leb a b = true) sorted →
  last sorted = Some m → ∀ x, x ∈ sorted → String.leb x m = true.
Proof.
  induction 1 as [|first rest Hrest IH Hfirst]; [discriminate|].
  intros Hlast x Hx. destruct rest as [|second rest].
  - injection Hlast as <-. apply list_elem_of_singleton in Hx as ->.
    apply leb_le. reflexivity.
  - change (last (first :: second :: rest)) with (last (second :: rest)) in Hlast.
    apply elem_of_cons in Hx as [->|Hx]; [|by apply IH].
    apply (proj1 (Forall_forall _ _) Hfirst).
    rewrite last_Some in Hlast. destruct Hlast as [l' ->].
    apply elem_of_app. right. apply list_elem_of_here.
Qed.

(** [download_screenshot] answers 404 exactly when no file of the listing
    starts with "print_<record id>_" and ends with ".png"; otherwise it
    serves, from the static directory, a file of the listing with that prefix
    and suffix that no other such file follows in the order of strings. *)
Theorem download_screenshot_latest (static_dir : string) (listing : list string)
    (record_id : string) :
  let shot f := Py.starts_with ("print_" +:+ record_id +:+ "_") f = true ∧
                ends_with ".png" f = true in
  match download_screenshot static_dir listing record_id with
  | None => ∀ f, f ∈ listing → ¬ shot f
  | Some path =>
      ∃ latest, path = static_dir +:+ "/" +:+ latest ∧ latest ∈ listing ∧ shot latest ∧
        ∀ f, f ∈ listing → shot f → String.leb f latest = true
  end.
Proof.
  intros shot. unfold download_screenshot. cbv zeta.
  set (png_files := filter _ listing).
  assert (Hfiles : ∀ f, f ∈ png_files ↔ shot f ∧ f ∈ listing)
    by (intros f; apply list_elem_of_filter).
  destruct (last (py_sorted png_files)) as [latest|] eqn:Hlast.
  - exists latest. split; [reflexivity|].
    assert (Hin : latest ∈ png_files).
    { apply py_sorted_elem. apply last_Some in Hlast as [l' ->].
      apply elem_of_app. right. apply list_elem_of_here. }
    apply Hfiles in Hin as [Hshot Hin]. split; [exact Hin|]. split; [exact Hshot|].
    intros f Hf Hfshot.
    apply (sorted_last_greatest _ _ (py_sorted_sorted png_files) Hlast).
    apply py_sorted_elem, Hfiles. auto.
  - intros f Hf Hshot. apply last_None in Hlast.
    assert (Hfin : f ∈ py_sorted png_files) by (apply py_sorted_elem, Hfiles; auto).
    rewrite Hlast in Hfin. by apply elem_of_nil in Hfin.
Qed.

(** * The life of a browser *)

Section Browser.

Variable E : environment.




























End Browser.



(** ** The order of the keys *)



